(** * The content-manager entity manager (services/entity-manager.ts)

    A shallow embedding of the entity manager service and the properties of
    its publish / unpublish / create / update / find operations.

    - JavaScript values are an inductive type; numbers are IEEE binary64
      (Rocq's primitive floats), objects are finite maps from property names
      to values.
    - The service talks to collaborators it does not own (document store,
      query engine, validator, event hub, populate builder, clock).  Every
      such call is a node of a program tree ([prog]); [run] interprets a
      tree against an arbitrary environment ([handler]) and records the
      calls that were issued, in order, with what they answered.  Theorems
      are stated for every environment. *)

From Stdlib Require Import Floats.PrimFloat Floats.FloatOps Floats.SpecFloat.
From Stdlib Require Import ZArith Uint63.
From stdpp Require Import gmap strings list.

Set Warnings "-register-all".

(** ** JavaScript values *)

Inductive value : Type :=
| VUndef
| VNull
| VBool (b : bool)
| VNum (n : float)
| VStr (s : string)
| VDate (ms : float)
| VArr (l : list value)
| VObj (o : gmap string value).

Abbreviation obj := (gmap string value).

Definition is_nan (n : float) : bool := negb (PrimFloat.eqb n n).

(** ToBoolean: [undefined], [null], [false], [0], [-0], [NaN] and the empty string are
    falsy, everything else (every object, array and Date) is truthy. *)
Definition truthy (v : value) : bool :=
  match v with
  | VUndef | VNull => false
  | VBool b => b
  | VNum n => negb (PrimFloat.eqb n 0 || is_nan n)
  | VStr s => negb (String.eqb s EmptyString)
  | VDate _ | VArr _ | VObj _ => true
  end.

(** [o[k]] on an object: a missing property reads as [undefined]. *)
Definition prop (o : obj) (k : string) : value := default VUndef (o !! k).

(** [v?.k] for a property name that no built-in prototype defines
    ([page], [pageSize], [results]): only objects can answer. *)
Definition optional_member (v : value) (k : string) : value :=
  match v with
  | VObj o => prop o k
  | _ => VUndef
  end.

(** A default in a parameter list or a destructuring pattern ([x = d]):
    it applies to [undefined] only. *)
Definition default_to (d v : value) : value :=
  match v with
  | VUndef => d
  | _ => v
  end.

(** [Math.ceil] on a binary64 number, through its sign, mantissa and
    exponent: a number with a non-negative exponent is an integer already;
    otherwise the magnitude is below 2^53 and the rounded magnitude converts
    back exactly.  Zeros, infinities and NaN are returned as they are, and
    the ceiling of a negative number above -1 is -0. *)
Definition Math_ceil (n : float) : float :=
  match Prim2SF n with
  | S754_finite s m e =>
      if (0 <=? e)%Z then n
      else
        let d := (2 ^ (- e))%Z in
        let q := (Z.pos m / d)%Z in
        let r := (Z.pos m mod d)%Z in
        if s then PrimFloat.opp (PrimFloat.of_uint63 (Uint63.of_Z q))
        else PrimFloat.of_uint63 (Uint63.of_Z (if (r =? 0)%Z then q else q + 1))
  | _ => n
  end.

(** ** Errors and collaborators *)

Inductive error : Type :=
| TypeError
| ApplicationError (message : string)
| ValidationError (message : string) (details : value)
| OtherError (payload : value).

(** What a call to a collaborator answered: a value, or a thrown error
    (a rejected promise). *)
Inductive outcome : Type :=
| Fulfilled (v : value)
| Rejected (e : error).

(** The calls the service makes outside itself. *)
Inductive call : Type :=
| GetModel (uid : string)
| DefaultSanitizeOutput (modelDef entity : value)
| EventHubEmit (event : string) (payload : value)
| IsWebhooksPopulateRelationsEnabled
| PopulateBuilder (uid : string) (countRelations : bool)
| GetDeepRelationsCount (entity : value) (uid : string)
| DocumentsFindMany (uid : string) (opts : value)
| DocumentsCount (uid : string) (opts : value)
| DocumentsFindOne (uid : string) (id opts : value)
| DocumentsCreate (uid : string) (params : value)
| DocumentsUpdate (uid : string) (id params : value)
| EntityServiceUpdate (uid : string) (id params : value)
| EntityServiceFindMany (uid : string) (params : value)
| DbQueryUpdateMany (uid : string) (params : value)
| ValidateEntityCreation (model data options entity : value)
| NewDate.

(** ** Programs *)

Inductive prog (A : Type) : Type :=
| Ret (a : A)
| Throw (e : error)
| Call (c : call) (k : outcome -> prog A).

Arguments Ret {A} a.
Arguments Throw {A} e.
Arguments Call {A} c k.

Fixpoint bind {A B} (m : prog A) (f : A -> prog B) : prog B :=
  match m with
  | Ret a => f a
  | Throw e => Throw e
  | Call c k => Call c (fun o => bind (k o) f)
  end.

Notation "'let*' x ':=' m 'in' k" := (bind m (fun x => k))
  (at level 10, x name, m at level 100, k at level 200).

(** Call a collaborator and wait for it: a rejection is thrown here. *)
Definition call_ (c : call) : prog value :=
  Call c (fun o => match o with Fulfilled v => Ret v | Rejected e => Throw e end).

(** Call a collaborator that returns a promise and keep the promise:
    its settlement is looked at later, by [Promise_all]. *)
Definition start (c : call) : prog outcome := Call c Ret.

(** An [async] function called without [await]: whatever it throws ends up
    in the promise it returns. *)
Fixpoint attempt (p : prog value) : prog outcome :=
  match p with
  | Ret v => Ret (Fulfilled v)
  | Throw e => Ret (Rejected e)
  | Call c k => Call c (fun o => attempt (k o))
  end.

(** [xs.map(f)] where [f] has effects: left to right. *)
Fixpoint mapM {A B} (f : A -> prog B) (l : list A) : prog (list B) :=
  match l with
  | [] => Ret []
  | x :: l' => let* y := f x in let* ys := mapM f l' in Ret (y :: ys)
  end.

(** [await Promise.all(ps)]: the values when every promise is fulfilled,
    otherwise a rejection is thrown.  The promises are given here by their
    settlements, without the time at which they settle: of several
    rejections the first in array order is thrown, where [Promise.all]
    throws the first in time.  Which rejection is thrown is therefore only
    stated where at most one promise is rejected, or where the statement
    holds for every rejected promise. *)
Fixpoint Promise_all (ps : list outcome) : prog (list value) :=
  match ps with
  | [] => Ret []
  | Fulfilled v :: ps' => let* vs := Promise_all ps' in Ret (v :: vs)
  | Rejected e :: _ => Throw e
  end.

(** A value used as an array ([xs.map(...)], [xs.reduce(...)]): anything
    else has no such method and the call fails. *)
Definition as_array (v : value) : prog (list value) :=
  match v with
  | VArr l => Ret l
  | _ => Throw TypeError
  end.

(** The characters of a string, as its iterator yields them. *)
Fixpoint characters (s : string) : list value :=
  match s with
  | EmptyString => []
  | String a s' => VStr (String a EmptyString) :: characters s'
  end.

(** A value iterated over (the input of [mapAsync]): the elements of an
    array, the characters of a string; nothing else is iterable. *)
Definition as_iterable (v : value) : prog (list value) :=
  match v with
  | VArr l => Ret l
  | VStr s => Ret (characters s)
  | _ => Throw TypeError
  end.

(** ** Running a program against an environment *)

Inductive completion (A : Type) : Type :=
| Returns (a : A)
| Throws (e : error).

Arguments Returns {A} a.
Arguments Throws {A} e.

Definition handler (W : Type) : Type := call -> W -> outcome * W.

Abbreviation trace := (list (call * outcome)).

Fixpoint run {W A} (h : handler W) (p : prog A) (w : W)
  : completion A * W * trace :=
  match p with
  | Ret a => (Returns a, w, [])
  | Throw e => (Throws e, w, [])
  | Call c k =>
      let '(o, w1) := h c w in
      let '(r, w2, t) := run h (k o) w1 in
      (r, w2, (c, o) :: t)
  end.

(** The bulk updates, the emitted events and the single-entry writes
    recorded in a trace. *)
Definition bulk_updates (t : trace) : list (string * value) :=
  omap (fun ev => match ev.1 with
                  | DbQueryUpdateMany uid params => Some (uid, params)
                  | _ => None
                  end) t.

Definition emitted (t : trace) : list (string * value) :=
  omap (fun ev => match ev.1 with
                  | EventHubEmit event payload => Some (event, payload)
                  | _ => None
                  end) t.

Definition document_creates (t : trace) : list (string * value) :=
  omap (fun ev => match ev.1 with
                  | DocumentsCreate uid params => Some (uid, params)
                  | _ => None
                  end) t.

Definition document_updates (t : trace) : list (string * value * value) :=
  omap (fun ev => match ev.1 with
                  | DocumentsUpdate uid id params => Some (uid, id, params)
                  | _ => None
                  end) t.

Definition entity_updates (t : trace) : list (string * value * value) :=
  omap (fun ev => match ev.1 with
                  | EntityServiceUpdate uid id params => Some (uid, id, params)
                  | _ => None
                  end) t.

(** ** The service *)

(** Modelled from the spec: [PUBLISHED_AT_ATTRIBUTE] comes from the
    [contentTypes.constants] of the utilities package, which is not part of
    the sources at hand; the spec names the attribute [publishedAt]. *)
Definition PUBLISHED_AT_ATTRIBUTE : string := "publishedAt".

(** [omit(PUBLISHED_AT_ATTRIBUTE)] *)
Definition omitPublishedAtField (body : obj) : obj :=
  delete PUBLISHED_AT_ATTRIBUTE body.

(** The populate builder is fluent:
    [getService('populate-builder')(uid).populateDeep(Infinity)
       .countRelationsIf(!isWebhooksPopulateRelationsEnabled()).build()].
    The flag is read, then the chain is one call carrying its arguments. *)
Definition buildDeepPopulate (uid : string) : prog value :=
  let* enabled := call_ IsWebhooksPopulateRelationsEnabled in
  call_ (PopulateBuilder uid (negb (truthy enabled))).

(** [entity.documentId] and the like, on a value of any type. *)
Definition member (v : value) (k : string) : prog value :=
  match v with
  | VUndef | VNull => Throw TypeError
  | VObj o => Ret (prop o k)
  | _ => Ret VUndef
  end.

Definition emitEvent (uid event : string) (entity : value) : prog value :=
  let* modelDef := call_ (GetModel uid) in
  let* sanitizedEntity := call_ (DefaultSanitizeOutput modelDef entity) in
  let* modelName := member modelDef "modelName" in
  let* _ := call_ (EventHubEmit event
                     (VObj {[ "model" := modelName; "entry" := sanitizedEntity ]})) in
  Ret VUndef.

(** [mapEntity] updates the entity in place and returns it; the embedding
    returns the updated entity.  The [uid] argument is unused. *)
Definition mapEntity (entity : value) (uid : string) : prog value :=
  match entity with
  | VUndef | VNull => Throw TypeError
  | VObj o =>
      if truthy (prop o "documentId") then
        let o1 := <["entryId" := prop o "id"]> o in
        let o2 := <["id" := prop o1 "documentId"]> o1 in
        Ret (VObj (delete "documentId" o2))
      else Ret entity
  | _ => Ret entity
  end.

(** [{...v}] for an object (a value without own properties adds none). *)
Definition spread (v : value) : obj :=
  match v with
  | VObj o => o
  | _ => ∅
  end.

(** [mapAsync(xs, f)]: [f] on every element of the iterable [xs], in
    order. *)
Definition mapAsync (xs : value) (f : value -> prog value) : prog value :=
  let* l := as_iterable xs in
  let* ys := mapM f l in
  Ret (VArr ys).

Definition mapEntitiesResponse (entities : value) (uid : string) : prog value :=
  if truthy (optional_member entities "results") then
    let* mappedResults :=
      mapAsync (optional_member entities "results") (fun entity => mapEntity entity uid) in
    Ret (VObj (<["results" := mappedResults]> (spread entities)))
  else mapEntity entities uid.

Section EntityManager.

(** [ENTRY_PUBLISH] and [ENTRY_UNPUBLISH] come from
    [ALLOWED_WEBHOOK_EVENTS] in the plugin's constants. *)
Variables ENTRY_PUBLISH ENTRY_UNPUBLISH : string.

(** [Number(v)] on a string and on an object is the language's own
    conversion (numeric literal syntax, [valueOf]/[toString]). *)
Variable StringToNumber : string -> float.
Variable ObjectToNumber : value -> float.

Definition ToNumber (v : value) : float :=
  match v with
  | VUndef => nan
  | VNull => 0
  | VBool b => if b then 1 else 0
  | VNum n => n
  | VStr s => StringToNumber s
  | VDate ms => ms
  | VArr _ | VObj _ => ObjectToNumber v
  end.

(** [Number(v) || d] *)
Definition number_or (v : value) (d : float) : float :=
  if truthy (VNum (ToNumber v)) then ToNumber v else d.

(** [const page = Number(opts?.page) || 1] *)
Definition findPage_page (opts : value) : float :=
  number_or (optional_member opts "page") 1.

(** [const pageSize = Number(opts?.pageSize) || 10] *)
Definition findPage_pageSize (opts : value) : float :=
  number_or (optional_member opts "pageSize") 10.

Definition findPage (opts : value) (uid : string) : prog value :=
  let page := findPage_page opts in
  let pageSize := findPage_pageSize opts in
  let* documents_p := start (DocumentsFindMany uid opts) in
  let* total_p := start (DocumentsCount uid opts) in
  let* settled := Promise_all [documents_p; total_p] in
  let documents := nth 0 settled VUndef in
  let total := default_to (VNum 0) (nth 1 settled VUndef) in
  let result :=
    VObj {[ "results" := documents;
            "pagination" :=
              VObj {[ "page" := VNum page;
                      "pageSize" := VNum pageSize;
                      "pageCount" :=
                        VNum (Math_ceil (PrimFloat.div (ToNumber total) pageSize));
                      "total" := total ]} ]} in
  mapEntitiesResponse result uid.

Definition findOne (id : value) (uid : string) (opts : value) : prog value :=
  let opts := default_to (VObj ∅) opts in
  let* entity := call_ (DocumentsFindOne uid id opts) in
  mapEntity entity uid.

Definition create (body : obj) (uid : string) : prog value :=
  let publishData := body in
  let* populate := buildDeepPopulate uid in
  let publishData := <[PUBLISHED_AT_ATTRIBUTE := VNull]> publishData in
  let params := VObj {[ "data" := VObj publishData; "populate" := populate ]} in
  let* entity :=
    (let* created := call_ (DocumentsCreate uid params) in mapEntity created uid) in
  let* enabled := call_ IsWebhooksPopulateRelationsEnabled in
  if truthy enabled then call_ (GetDeepRelationsCount entity uid)
  else Ret entity.

Definition update (document body : obj) (uid : string) : prog value :=
  let publishData := omitPublishedAtField body in
  let* populate := buildDeepPopulate uid in
  let publishData := delete "id" publishData in
  let params := VObj {[ "data" := VObj publishData; "populate" := populate ]} in
  let* updatedDocument :=
    (let* updated := call_ (DocumentsUpdate uid (prop document "id") params) in
     mapEntity updated uid) in
  let* enabled := call_ IsWebhooksPopulateRelationsEnabled in
  if truthy enabled then call_ (GetDeepRelationsCount updatedDocument uid)
  else Ret updatedDocument.

(** The validations of [publishMany]: [entities.map(...)] calls the
    validator for every entity and collects the promises. *)
Definition validations (entities : list obj) (uid : string) : prog (list outcome) :=
  mapM (fun entity =>
          let* modelDef := call_ (GetModel uid) in
          start (ValidateEntityCreation modelDef (VObj entity) VUndef (VObj entity)))
       entities.

(** [Promise.all(entities.map(entity => emitEvent(uid, event, entity)))].
    The calls of one [emitEvent] are kept together, entity after entity;
    at run time the emissions come after the model lookups and sanitizer
    calls of all entities.  The calls made for one entity, their order and
    their arguments are those of the code; the statements below are about
    these, not about how the calls of different entities interleave. *)
Definition emitEvents (uid event : string) (entities : value) : prog (list value) :=
  let* l := as_array entities in
  let* promises := mapM (fun entity => attempt (emitEvent uid event entity)) l in
  Promise_all promises.

Definition ids_filter (ids : list value) : value :=
  VObj {[ "id" := VObj {[ "$in" := VArr ids ]} ]}.

Definition publishMany (entities : list obj) (uid : string) : prog value :=
  if (length entities =? 0)%nat then Ret VNull
  else
    let* promises := validations entities uid in
    let* _ := Promise_all promises in
    let entitiesToPublish :=
      map (fun entity => prop entity "id")
          (List.filter (fun entity => negb (truthy (prop entity PUBLISHED_AT_ATTRIBUTE)))
                       entities) in
    let filters := ids_filter entitiesToPublish in
    let* now := call_ NewDate in
    let data := VObj {[ PUBLISHED_AT_ATTRIBUTE := now ]} in
    let* populate := buildDeepPopulate uid in
    let* publishedEntitiesCount :=
      call_ (DbQueryUpdateMany uid (VObj {[ "where" := filters; "data" := data ]})) in
    let* publishedEntities :=
      call_ (EntityServiceFindMany uid
               (VObj {[ "filters" := filters; "populate" := populate ]})) in
    let* _ := emitEvents uid ENTRY_PUBLISH publishedEntities in
    Ret publishedEntitiesCount.

Definition unpublishMany (entities : list obj) (uid : string) : prog value :=
  if (length entities =? 0)%nat then Ret VNull
  else
    let entitiesToUnpublish :=
      map (fun entity => prop entity "id")
          (List.filter (fun entity => truthy (prop entity PUBLISHED_AT_ATTRIBUTE))
                       entities) in
    let filters := ids_filter entitiesToUnpublish in
    let data := VObj {[ PUBLISHED_AT_ATTRIBUTE := VNull ]} in
    let* populate := buildDeepPopulate uid in
    let* unpublishedEntitiesCount :=
      call_ (DbQueryUpdateMany uid (VObj {[ "where" := filters; "data" := data ]})) in
    let* unpublishedEntities :=
      call_ (EntityServiceFindMany uid
               (VObj {[ "filters" := filters; "populate" := populate ]})) in
    let* _ := emitEvents uid ENTRY_UNPUBLISH unpublishedEntities in
    Ret unpublishedEntitiesCount.

(** [body = {}]: [None] is an omitted argument. *)
Definition unpublish (entity : obj) (uid : string) (body : option obj) : prog value :=
  if negb (truthy (prop entity PUBLISHED_AT_ATTRIBUTE)) then
    Throw (ApplicationError "already.draft")
  else
    let data := <[PUBLISHED_AT_ATTRIBUTE := VNull]> (default ∅ body) in
    let* populate := buildDeepPopulate uid in
    let params := VObj {[ "data" := VObj data; "populate" := populate ]} in
    let* updatedEntity := call_ (EntityServiceUpdate uid (prop entity "id") params) in
    let* _ := emitEvent uid ENTRY_UNPUBLISH updatedEntity in
    let* mappedEntity := mapEntity updatedEntity uid in
    let* enabled := call_ IsWebhooksPopulateRelationsEnabled in
    if truthy enabled then call_ (GetDeepRelationsCount mappedEntity uid)
    else Ret mappedEntity.

End EntityManager.

(** ** A reference environment *)

(** Modelled from the spec: the collaborators of section 6 (document store,
    bulk query primitive, event hub, validator, populate builder, feature
    flag) are not part of the sources at hand.  This environment is an
    in-memory table of entries of one content type, used to run the service
    on concrete inputs.  Its validator requires a [title]. *)
Module Demo.

Definition ENTRY_PUBLISH : string := "entry.publish".
Definition ENTRY_UNPUBLISH : string := "entry.unpublish".

Definition of_nat (n : nat) : float := PrimFloat.of_uint63 (Uint63.of_Z (Z.of_nat n)).

Fixpoint decimal (s : string) (acc : Z) : option Z :=
  match s with
  | EmptyString => Some acc
  | String a s' =>
      let d := Z.of_N (Ascii.N_of_ascii a) in
      if ((48 <=? d) && (d <=? 57))%Z then decimal s' (10 * acc + (d - 48))%Z
      else None
  end.

(** A stand-in for [Number] on strings, exact on the page numbers of the
    examples: unsigned decimal integers of at most fifteen digits.  Every
    other string is read as not a number. *)
Definition StringToNumber (s : string) : float :=
  match decimal s 0 with
  | Some z => if (String.length s <=? 15)%nat then PrimFloat.of_uint63 (Uint63.of_Z z)
              else nan
  | None => nan
  end.

Definition ObjectToNumber (v : value) : float := nan.

Definition same_id (a b : value) : bool :=
  match a, b with
  | VNum x, VNum y => PrimFloat.eqb x y
  | VStr x, VStr y => String.eqb x y
  | _, _ => false
  end.

Definition id_in (ids : list value) (row : obj) : bool :=
  existsb (same_id (prop row "id")) ids.

(** The identifiers of [{ id: { $in: ids } }] under key [k] of [params]. *)
Definition ids_of (params : value) (k : string) : list value :=
  match optional_member (optional_member (optional_member params k) "id") "$in" with
  | VArr ids => ids
  | _ => []
  end.

Definition patch (data : value) (row : obj) : obj := spread data ∪ row.

Definition is_document (id : value) (row : obj) : bool :=
  same_id (prop row "documentId") id || same_id (prop row "id") id.

Definition first_or_null (rows : list obj) : value :=
  match rows with
  | row :: _ => VObj row
  | [] => VNull
  end.

Definition handle : handler (list obj) := fun c rows =>
  match c with
  | GetModel uid =>
      (Fulfilled (VObj {[ "uid" := VStr uid; "modelName" := VStr "article" ]}), rows)
  | DefaultSanitizeOutput _ entity => (Fulfilled entity, rows)
  | EventHubEmit _ _ => (Fulfilled VUndef, rows)
  | IsWebhooksPopulateRelationsEnabled => (Fulfilled (VBool false), rows)
  | PopulateBuilder _ _ => (Fulfilled (VObj ∅), rows)
  | GetDeepRelationsCount entity _ => (Fulfilled entity, rows)
  | DocumentsFindMany _ _ => (Fulfilled (VArr (VObj <$> rows)), rows)
  | DocumentsCount _ _ => (Fulfilled (VNum (of_nat (length rows))), rows)
  | DocumentsFindOne _ id _ =>
      (Fulfilled (first_or_null (List.filter (is_document id) rows)), rows)
  | DocumentsCreate _ params =>
      let row := spread (optional_member params "data") in
      (Fulfilled (VObj row), rows ++ [row])
  | DocumentsUpdate _ id params =>
      let rows' := (fun row => if is_document id row
                               then patch (optional_member params "data") row
                               else row) <$> rows in
      (Fulfilled (first_or_null (List.filter (is_document id) rows')), rows')
  | EntityServiceUpdate _ id params =>
      let rows' := (fun row => if same_id (prop row "id") id
                               then patch (optional_member params "data") row
                               else row) <$> rows in
      (Fulfilled (first_or_null
                    (List.filter (fun row => same_id (prop row "id") id) rows')), rows')
  | EntityServiceFindMany _ params =>
      (Fulfilled (VArr (VObj <$> List.filter (id_in (ids_of params "filters")) rows)), rows)
  | DbQueryUpdateMany _ params =>
      let ids := ids_of params "where" in
      let rows' := (fun row => if id_in ids row
                               then patch (optional_member params "data") row
                               else row) <$> rows in
      (Fulfilled (VObj {[ "count" := VNum (of_nat (length (List.filter (id_in ids) rows))) ]}),
       rows')
  | ValidateEntityCreation _ data _ _ =>
      if truthy (optional_member data "title") then (Fulfilled data, rows)
      else (Rejected (ValidationError "title must be defined." VUndef), rows)
  | NewDate => (Fulfilled (VDate 1700000000000), rows)
  end.

Definition draft (id : float) (title : string) : obj :=
  {[ "id" := VNum id; "title" := VStr title; "publishedAt" := VNull ]}.

Definition published (id : float) (title : string) : obj :=
  {[ "id" := VNum id; "title" := VStr title; "publishedAt" := VDate 1600000000000 ]}.

(** An entry as the document store returns it, with its document
    identifier next to the row identifier. *)
Definition document (id : float) (documentId title : string) : obj :=
  <["documentId" := VStr documentId]> (published id title).

Definition twelve_rows : list obj :=
  (fun n => {[ "id" := VNum (of_nat n) ]}) <$> seq 1 12.

End Demo.

(** Inputs of the example runs. *)
Definition article : string := "api::article.article".

Definition two_published : list obj := [Demo.published 1 "a"; Demo.published 2 "b"].

Definition one_invalid : list obj :=
  [Demo.draft 1 "a"; Demo.draft 2 EmptyString; Demo.draft 3 "c"].

Definition page_two_of_five : value := VObj {[ "page" := VNum 2; "pageSize" := VNum 5 ]}.

(** ** The rest of the service *)

(** The other operations of the service, and the code around it, call
    collaborators of their own, next to the ones above. *)
Inductive xcall : Type :=
| Core (c : call)
| GetDeepPopulate (uid : string)
| DocumentsClone (uid : string) (id params : value)
| DocumentsDelete (uid : string) (id params : value)
| DocumentsPublish (uid : string) (id params : value)
| ConsoleLog (args : list value)
| GetDeepPopulateDraftCount (uid : string)
| SumDraftCounts (entity : value) (uid : string)
| IsLocalizedContentType (contentType : value)
| Next (context : value)
| SyncNonLocalizedAttributes (result schema : value).

Inductive xprog (A : Type) : Type :=
| XRet (a : A)
| XThrow (e : error)
| XCall (c : xcall) (k : outcome -> xprog A).

Arguments XRet {A} a.
Arguments XThrow {A} e.
Arguments XCall {A} c k.

Fixpoint xbind {A B} (m : xprog A) (f : A -> xprog B) : xprog B :=
  match m with
  | XRet a => f a
  | XThrow e => XThrow e
  | XCall c k => XCall c (fun o => xbind (k o) f)
  end.

Notation "'let+' x ':=' m 'in' k" := (xbind m (fun x => k))
  (at level 10, x name, m at level 100, k at level 200).

Definition xcall_ (c : xcall) : xprog value :=
  XCall c (fun o => match o with Fulfilled v => XRet v | Rejected e => XThrow e end).

(** A program over the first set of collaborators, as a program over all
    of them. *)
Fixpoint lift {A} (p : prog A) : xprog A :=
  match p with
  | Ret a => XRet a
  | Throw e => XThrow e
  | Call c k => XCall (Core c) (fun o => lift (k o))
  end.

Fixpoint xmapM {A B} (f : A -> xprog B) (l : list A) : xprog (list B) :=
  match l with
  | [] => XRet []
  | x :: l' => let+ y := f x in let+ ys := xmapM f l' in XRet (y :: ys)
  end.

(** [xs.filter(f)] where [f] has effects. *)
Fixpoint xfilterM {A} (f : A -> xprog value) (l : list A) : xprog (list A) :=
  match l with
  | [] => XRet []
  | x :: l' =>
      let+ keep := f x in
      let+ xs := xfilterM f l' in
      XRet (if truthy keep then x :: xs else xs)
  end.

Definition xhandler (W : Type) : Type := xcall -> W -> outcome * W.

Abbreviation xtrace := (list (xcall * outcome)).

Fixpoint xrun {W A} (h : xhandler W) (p : xprog A) (w : W)
  : completion A * W * xtrace :=
  match p with
  | XRet a => (Returns a, w, [])
  | XThrow e => (Throws e, w, [])
  | XCall c k =>
      let '(o, w1) := h c w in
      let '(r, w2, t) := xrun h (k o) w1 in
      (r, w2, (c, o) :: t)
  end.

(** [xs.at(0)]: the first element of an array, [undefined] when it is
    empty; a string answers its first character; nothing else has [at]. *)
Definition at_0 (xs : value) : prog value :=
  match xs with
  | VArr l => Ret (nth 0 l VUndef)
  | VStr (String a _) => Ret (VStr (String a EmptyString))
  | VStr EmptyString => Ret VUndef
  | _ => Throw TypeError
  end.

(** [xs.includes(v)] for an array of string literals: only a string can be
    the same value as one of them. *)
Definition includes_literal (xs : list string) (v : value) : bool :=
  match v with
  | VStr s => existsb (String.eqb s) xs
  | _ => false
  end.

Module Service.

Definition find (opts : value) (uid : string) : xprog value :=
  let+ populate := xcall_ (GetDeepPopulate uid) in
  let params := VObj (<["populate" := populate]> (spread opts)) in
  let+ entities := xcall_ (Core (DocumentsFindMany uid params)) in
  lift (mapEntitiesResponse entities uid).

Definition clone (document body : obj) (uid : string) : xprog value :=
  let+ populate := lift (buildDeepPopulate uid) in
  let publishData := body in
  let publishData := <[PUBLISHED_AT_ATTRIBUTE := VNull]> publishData in
  let publishData := delete "id" publishData in
  let params := VObj {[ "data" := VObj publishData; "populate" := populate ]} in
  let+ clonedEntity := xcall_ (DocumentsClone uid (prop document "id") params) in
  let+ enabled := xcall_ (Core IsWebhooksPopulateRelationsEnabled) in
  if truthy enabled then xcall_ (Core (GetDeepRelationsCount clonedEntity uid))
  else XRet clonedEntity.

(** [mapEntity] rewrites the first version in place, so the array that is
    logged holds the remapped entry. *)
Definition publish (document : obj) (uid : string) : xprog value :=
  let+ populate := lift (buildDeepPopulate uid) in
  let params := VObj {[ "populate" := populate ]} in
  let+ published := xcall_ (DocumentsPublish uid (prop document "id") params) in
  let+ publishedDocuments := lift (member published "versions") in
  let+ publishedDocument := lift (at_0 publishedDocuments) in
  let+ mappedEntity := lift (mapEntity publishedDocument uid) in
  let publishedDocuments :=
    match publishedDocuments with
    | VArr (_ :: others) => VArr (mappedEntity :: others)
    | _ => publishedDocuments
    end in
  let+ _ := xcall_ (ConsoleLog [mappedEntity; publishedDocuments]) in
  let+ enabled := xcall_ (Core IsWebhooksPopulateRelationsEnabled) in
  if truthy enabled then xcall_ (Core (GetDeepRelationsCount mappedEntity uid))
  else XRet mappedEntity.

Definition countDraftRelations (id : value) (uid : string) : xprog value :=
  let+ draftCount := xcall_ (GetDeepPopulateDraftCount uid) in
  let+ populate := lift (member draftCount "populate") in
  let+ hasRelations := lift (member draftCount "hasRelations") in
  if negb (truthy hasRelations) then XRet (VNum 0)
  else
    let+ document :=
      xcall_ (Core (DocumentsFindOne uid id (VObj {[ "populate" := populate ]}))) in
    xcall_ (SumDraftCounts document uid).

Section Language.

(** [a + b] when the operands are not both numbers is the language's own
    conversion and concatenation; [xs.includes(v)] compares with
    SameValueZero. *)
Variable AddOther : value -> value -> value.
Variable SameValueZero : value -> value -> bool.

Definition add (a b : value) : value :=
  match a, b with
  | VNum x, VNum y => VNum (PrimFloat.add x y)
  | _, _ => AddOther a b
  end.

(** [entities.reduce((count, entity) => sumDraftCounts(entity, uid) + count, count)] *)
Fixpoint sumDraftCounts_from (count : value) (entities : list value) (uid : string)
  : xprog value :=
  match entities with
  | [] => XRet count
  | entity :: entities' =>
      let+ drafts := xcall_ (SumDraftCounts entity uid) in
      sumDraftCounts_from (add drafts count) entities' uid
  end.

Definition countManyEntriesDraftRelations (ids : list value) (uid : string) (locale : value)
  : xprog value :=
  let locale := default_to (VStr "en") locale in
  let+ draftCount := xcall_ (GetDeepPopulateDraftCount uid) in
  let+ populate := lift (member draftCount "populate") in
  let+ hasRelations := lift (member draftCount "hasRelations") in
  if negb (truthy hasRelations) then XRet (VNum 0)
  else
    let+ entities :=
      xcall_ (Core (EntityServiceFindMany uid
                      (VObj {[ "populate" := populate;
                               "filters" := ids_filter ids;
                               "locale" := locale ]}))) in
    let+ l := lift (as_array entities) in
    sumDraftCounts_from (VNum 0) l uid.

(** The identifiers of the localized content types, as
    [registerModelsHooks] collects them from [Object.values(strapi.contentTypes)]. *)
Definition i18nModelUIDs (contentTypes : list value) : xprog (list value) :=
  let+ localized :=
    xfilterM (fun contentType => xcall_ (IsLocalizedContentType contentType)) contentTypes in
  xmapM (fun contentType => lift (member contentType "uid")) localized.

(** The document-service middleware that [registerModelsHooks] installs. *)
Definition middleware (uids : list value) (context : value) : xprog value :=
  let+ schema := lift (member context "contentType") in
  let+ action := lift (member context "action") in
  if negb (includes_literal ["create"; "update"; "createEntry"] action) then
    xcall_ (Next context)
  else
    let+ uid := lift (member schema "uid") in
    if negb (existsb (fun u => SameValueZero u uid) uids) then xcall_ (Next context)
    else
      let+ result := xcall_ (Next context) in
      let+ _ := xcall_ (SyncNonLocalizedAttributes result schema) in
      XRet result.

End Language.

(** [delete] of the service. *)
Definition delete (document : obj) (uid : string) : xprog value :=
  let+ populate := lift (buildDeepPopulate uid) in
  let+ deletedEntity :=
    xcall_ (DocumentsDelete uid (prop document "id") (VObj {[ "populate" := populate ]})) in
  let+ enabled := xcall_ (Core IsWebhooksPopulateRelationsEnabled) in
  if truthy enabled then xcall_ (Core (GetDeepRelationsCount deletedEntity uid))
  else XRet deletedEntity.

End Service.

(** Modelled from the spec: the reference environment, extended to the
    further collaborators.  Publishing sets [publishedAt] and answers the
    versions of the document; the draft count of an entry is its [drafts]
    field; a content type is localized when its [localized] field says so;
    [next] answers the entry [{id: 1}]. *)
Module XDemo.

Definition drafts_of (entity : value) : float :=
  match optional_member entity "drafts" with
  | VNum n => n
  | _ => 0
  end.

Definition handle : xhandler (list obj) := fun c rows =>
  match c with
  | Core c' => Demo.handle c' rows
  | GetDeepPopulate _ => (Fulfilled (VObj {[ "author" := VBool true ]}), rows)
  | DocumentsClone _ id params =>
      match List.filter (Demo.is_document id) rows with
      | row :: _ =>
          let copy := Demo.patch (optional_member params "data") row in
          (Fulfilled (VObj copy), rows ++ [copy])
      | [] => (Fulfilled VNull, rows)
      end
  | DocumentsDelete _ id _ =>
      (Fulfilled (Demo.first_or_null (List.filter (Demo.is_document id) rows)),
       List.filter (fun row => negb (Demo.is_document id row)) rows)
  | DocumentsPublish _ id _ =>
      let rows' := (fun row => if Demo.is_document id row
                               then <["publishedAt" := VDate 1700000000000]> row
                               else row) <$> rows in
      (Fulfilled (VObj {[ "versions" :=
                            VArr (VObj <$> List.filter (Demo.is_document id) rows') ]}),
       rows')
  | ConsoleLog _ => (Fulfilled VUndef, rows)
  | GetDeepPopulateDraftCount _ =>
      (Fulfilled (VObj {[ "populate" := VObj ∅; "hasRelations" := VBool true ]}), rows)
  | SumDraftCounts entity _ => (Fulfilled (VNum (drafts_of entity)), rows)
  | IsLocalizedContentType contentType =>
      (Fulfilled (optional_member contentType "localized"), rows)
  | Next _ => (Fulfilled (VObj {[ "id" := VNum 1 ]}), rows)
  | SyncNonLocalizedAttributes _ _ => (Fulfilled VUndef, rows)
  end.

Definition with_drafts (id drafts : float) : obj :=
  {[ "id" := VNum id; "drafts" := VNum drafts ]}.

Definition content_type (uid : string) (localized : bool) : obj :=
  {[ "uid" := VStr uid; "localized" := VBool localized ]}.

End XDemo.

(** ** The validation helper *)

(** What [schema.parse(data)] does: it returns the parsed data, throws a
    [ZodError] (with the messages of its issues and what [format()]
    answers), or throws something else. *)
Inductive parsed : Type :=
| Parsed (output : value)
| ThrowsZodError (messages : list string) (formatted : value)
| ThrowsOther (e : error).

Definition newline : string := String (Ascii.ascii_of_nat 10) EmptyString.

Definition validate (schema : value -> parsed) (data : value) : completion value :=
  match schema data with
  | Parsed output => Returns output
  | ThrowsZodError messages formatted =>
      Throws (ValidationError (String.concat newline messages)
                (VObj {[ "errors" := formatted ]}))
  | ThrowsOther _ => Returns VUndef
  end.

(** The store writes of a run, in order. *)
Definition is_store_write (c : xcall) : bool :=
  match c with
  | Core (DocumentsCreate _ _) | Core (DocumentsUpdate _ _ _)
  | Core (EntityServiceUpdate _ _ _) | Core (DbQueryUpdateMany _ _)
  | DocumentsClone _ _ _ | DocumentsDelete _ _ _ | DocumentsPublish _ _ _ => true
  | _ => false
  end.

Definition writes (t : xtrace) : list xcall := List.filter is_store_write (t.*1).

(** The parameters a store write was called with. *)
Definition params_of (c : xcall) : value :=
  match c with
  | Core (DocumentsCreate _ params) | Core (DocumentsUpdate _ _ params)
  | Core (EntityServiceUpdate _ _ params) | Core (DbQueryUpdateMany _ params)
  | DocumentsClone _ _ params | DocumentsDelete _ _ params
  | DocumentsPublish _ _ params => params
  | _ => VUndef
  end.

Definition is_event_or_validation (c : xcall) : bool :=
  match c with
  | Core (EventHubEmit _ _) | Core (ValidateEntityCreation _ _ _ _) => true
  | _ => false
  end.

(** The deep-populate policy on a trace: every store write is the third
    call, right after the flag has been read and the populate builder has
    answered the populate specification the write is given. *)
Definition populate_built_first (uid : string) (t : xtrace) : Prop :=
  forall c : xcall,
    c ∈ writes t ->
    exists (flag : value) (o : outcome) (rest : xtrace),
      t = (Core IsWebhooksPopulateRelationsEnabled, Fulfilled flag)
          :: (Core (PopulateBuilder uid (negb (truthy flag))),
              Fulfilled (optional_member (params_of c) "populate"))
          :: (c, o) :: rest.

(** The calls of [emitEvent]. *)
Definition is_emit_phase_call (c : call) : bool :=
  match c with
  | GetModel _ | DefaultSanitizeOutput _ _ | EventHubEmit _ _ => true
  | _ => false
  end.

Definition is_validator_call (c : call) : bool :=
  match c with
  | ValidateEntityCreation _ _ _ _ => true
  | _ => false
  end.

(** The identifiers a batch operation selects: those of the entries whose
    [publishedAt] is falsy ([published = false]) or truthy
    ([published = true]), in the order of the input. *)
Definition selected_ids (published : bool) (entities : list obj) : list value :=
  map (fun entity => prop entity "id")
      (List.filter (fun entity =>
                      if published then truthy (prop entity PUBLISHED_AT_ATTRIBUTE)
                      else negb (truthy (prop entity PUBLISHED_AT_ATTRIBUTE)))
                   entities).

(** A program that calls no collaborator. *)
Definition call_free {A} (p : prog A) : Prop :=
  match p with
  | Call _ _ => False
  | _ => True
  end.

(** ** Entries of the data model *)

(** The [publishedAt] of the data model: [null] for a draft, a timestamp
    (a Date, or a non-empty date string) for a published entry. *)
Definition nullable_timestamp (v : value) : bool :=
  match v with
  | VNull | VDate _ => true
  | VStr s => negb (String.eqb s EmptyString)
  | _ => false
  end.

(** An entry is an object. *)
Definition is_entry (v : value) : bool :=
  match v with
  | VObj _ => true
  | _ => false
  end.

Definition is_returns {A} (r : completion A) : bool :=
  match r with
  | Returns _ => true
  | Throws _ => false
  end.

(** The identifier remapping of [mapEntity] on an object. *)
Definition remap (o : obj) : obj :=
  if truthy (prop o "documentId") then
    delete "documentId" (<["id" := prop o "documentId"]> (<["entryId" := prop o "id"]> o))
  else o.

Definition remap_value (v : value) : value :=
  match v with
  | VObj o => VObj (remap o)
  | _ => v
  end.

(** The calls of the validation phase of [publishMany]. *)
Definition is_validation_call (c : call) : bool :=
  match c with
  | GetModel _ | ValidateEntityCreation _ _ _ _ => true
  | _ => false
  end.


(** ** General facts about [run] *)

Section Run.

Context {W : Type} (h : handler W).

Lemma run_bind {A B} (m : prog A) (f : A -> prog B) (w : W) :
  run h (bind m f) w =
    match run h m w with
    | (Returns a, w1, t1) =>
        let '(r, w2, t2) := run h (f a) w1 in (r, w2, t1 ++ t2)
    | (Throws e, w1, t1) => (Throws e, w1, t1)
    end.
Proof.
  revert w. induction m as [a | e | c k IH]; intros w; simpl.
  - destruct (run h (f a) w) as [[r w2] t2]. reflexivity.
  - reflexivity.
  - destruct (h c w) as [o w1]. rewrite IH.
    destruct (run h (k o) w1) as [[[a | e] w2] t1]; [| reflexivity].
    destruct (run h (f a) w2) as [[r w3] t2]. reflexivity.
Qed.

End Run.

(** One step of a run: case analysis on what the environment answers to the
    next call. *)
Ltac run_step :=
  match goal with
  | |- context [match ?x with _ => _ end] =>
      lazymatch x with
      | ?h ?c ?w =>
          lazymatch type of x with
          | (outcome * _)%type =>
              let E := fresh "E" in
              destruct x as [[?v | ?e] ?w] eqn:E; simpl
          end
      end
  end.

(** The same step, unfolding nothing but [bind] and [run] afterwards, for
    programs with a part that is not a fixed sequence of calls. *)
Ltac call_step :=
  match goal with
  | |- context [match ?x with _ => _ end] =>
      lazymatch x with
      | ?h ?c ?w =>
          lazymatch type of x with
          | (outcome * _)%type =>
              let E := fresh "E" in
              destruct x as [[?v | ?e] ?w] eqn:E; cbn [bind run]
          end
      end
  end.

(** Case analysis on the values a run inspects: the receiver of a property
    read, the entity given to [mapEntity], a truthiness test. *)
Ltac value_step :=
  match goal with
  | |- context [member ?v _] => is_var v; destruct v; simpl
  | |- context [mapEntity ?v _] => is_var v; destruct v; simpl
  | |- context [if truthy ?x then _ else _] => destruct (truthy x) eqn:?; simpl
  end.

Ltac run_all := repeat first [run_step | value_step].

(** ** Properties of the service *)

Section Properties.

Variables ENTRY_PUBLISH ENTRY_UNPUBLISH : string.
Variable StringToNumber : string -> float.
Variable ObjectToNumber : value -> float.

(** The guard of [unpublish] is a falsiness test. *)
Lemma unpublish_throws_iff_falsy (entity : obj) (uid : string) (body : option obj) :
  unpublish ENTRY_UNPUBLISH entity uid body = Throw (ApplicationError "already.draft")
  <-> truthy (prop entity PUBLISHED_AT_ATTRIBUTE) = false.
Proof.
  unfold unpublish.
  destruct (truthy (prop entity PUBLISHED_AT_ATTRIBUTE)); simpl; split;
    intros H; try reflexivity; discriminate H.
Qed.

Lemma nullable_timestamp_truthy (v : value) :
  nullable_timestamp v = true -> (truthy v = false <-> v = VNull).
Proof.
  destruct v; simpl; try discriminate; intros H; split; intros H'; try reflexivity;
    try discriminate H'.
  rewrite H in H'. discriminate H'.
Qed.

(** C10: when [unpublish] stops at its guard it has called no
    collaborator: the populate specification is not built, nothing is
    written, no event is emitted, and the environment is as it was. *)
Theorem unpublish_already_draft_atomic
    {W : Type} (h : handler W) (w : W)
    (entity : obj) (uid : string) (body : option obj) :
  truthy (prop entity PUBLISHED_AT_ATTRIBUTE) = false ->
  run h (unpublish ENTRY_UNPUBLISH entity uid body) w
  = (Throws (ApplicationError "already.draft"), w, []).
Proof.
  intros H.
  rewrite (proj2 (unpublish_throws_iff_falsy entity uid body) H). reflexivity.
Qed.

Lemma mapEntity_entry (o : obj) (uid : string) :
  mapEntity (VObj o) uid = Ret (VObj (remap o)).
Proof.
  unfold mapEntity, remap. destruct (truthy (prop o "documentId")); [| reflexivity].
  do 3 f_equal. unfold prop. rewrite lookup_insert_ne by discriminate. reflexivity.
Qed.

(** C3: on an entry of the data model, [unpublish] throws
    [ApplicationError("already.draft")] exactly when [publishedAt] is
    null.  Otherwise, in every environment, every write it issues is the
    update of that entry with the patch merged with [publishedAt = null], it
    emits only the unpublish event, at most once, and a call that returns has
    written once and emitted exactly one event.  And whenever the environment
    answers the flag, the populate builder, the update, the model lookup, the
    sanitizer and the event hub, [unpublish] has issued exactly that update
    and emitted exactly one unpublish event, carrying the sanitized updated
    entry; it then returns the updated entry, remapped, when the flag is
    off. *)
Theorem unpublish_published_or_already_draft
    {W : Type} (h : handler W) (w : W)
    (entity : obj) (uid : string) (body : option obj) :
  nullable_timestamp (prop entity PUBLISHED_AT_ATTRIBUTE) = true ->
  (unpublish ENTRY_UNPUBLISH entity uid body = Throw (ApplicationError "already.draft")
   <-> prop entity PUBLISHED_AT_ATTRIBUTE = VNull)
  /\ (prop entity PUBLISHED_AT_ATTRIBUTE <> VNull ->
      let '(r, _, t) := run h (unpublish ENTRY_UNPUBLISH entity uid body) w in
      Forall (fun u =>
                u.1 = (uid, prop entity "id")
                /\ optional_member u.2 "data"
                   = VObj (<[PUBLISHED_AT_ATTRIBUTE := VNull]> (default ∅ body)))
             (entity_updates t)
      /\ Forall (fun ev => ev.1 = ENTRY_UNPUBLISH) (emitted t)
      /\ length (entity_updates t) <= 1
      /\ length (emitted t) <= 1
      /\ (is_returns r = true ->
          length (entity_updates t) = 1 /\ length (emitted t) = 1))
  /\ (prop entity PUBLISHED_AT_ATTRIBUTE <> VNull ->
      forall (flag populate sanitized ack : value) (updated modelDef : obj)
             (w1 w2 w3 w4 w5 w6 : W),
        let params :=
          VObj {[ "data" := VObj (<[PUBLISHED_AT_ATTRIBUTE := VNull]> (default ∅ body));
                  "populate" := populate ]} in
        let payload :=
          VObj {[ "model" := prop modelDef "modelName"; "entry" := sanitized ]} in
        h IsWebhooksPopulateRelationsEnabled w = (Fulfilled flag, w1) ->
        h (PopulateBuilder uid (negb (truthy flag))) w1 = (Fulfilled populate, w2) ->
        h (EntityServiceUpdate uid (prop entity "id") params) w2
        = (Fulfilled (VObj updated), w3) ->
        h (GetModel uid) w3 = (Fulfilled (VObj modelDef), w4) ->
        h (DefaultSanitizeOutput (VObj modelDef) (VObj updated)) w4
        = (Fulfilled sanitized, w5) ->
        h (EventHubEmit ENTRY_UNPUBLISH payload) w5 = (Fulfilled ack, w6) ->
        exists (r : completion value) (w' : W) (rest : trace),
          run h (unpublish ENTRY_UNPUBLISH entity uid body) w
          = (r, w',
             [(IsWebhooksPopulateRelationsEnabled, Fulfilled flag);
              (PopulateBuilder uid (negb (truthy flag)), Fulfilled populate);
              (EntityServiceUpdate uid (prop entity "id") params, Fulfilled (VObj updated));
              (GetModel uid, Fulfilled (VObj modelDef));
              (DefaultSanitizeOutput (VObj modelDef) (VObj updated), Fulfilled sanitized);
              (EventHubEmit ENTRY_UNPUBLISH payload, Fulfilled ack)]
             ++ rest)
          /\ entity_updates rest = []
          /\ emitted rest = []
          /\ (forall (flag' : value) (w7 : W),
                h IsWebhooksPopulateRelationsEnabled w6 = (Fulfilled flag', w7) ->
                truthy flag' = false ->
                r = Returns (VObj (remap updated))
                /\ w' = w7
                /\ rest = [(IsWebhooksPopulateRelationsEnabled, Fulfilled flag')])).
Proof.
  intros Hwf. pose proof (nullable_timestamp_truthy _ Hwf) as Hnull.
  split; [| split].
  - rewrite unpublish_throws_iff_falsy. exact Hnull.
  - intros Hpub. unfold unpublish.
    destruct (truthy (prop entity PUBLISHED_AT_ATTRIBUTE)) eqn:Ht;
      [| exfalso; apply Hpub, Hnull; reflexivity].
    simpl.
    run_all; repeat split; auto; try discriminate;
      repeat constructor; auto.
  - intros Hpub flag populate sanitized ack updated modelDef w1 w2 w3 w4 w5 w6
      params payload E1 E2 E3 E4 E5 E6.
    unfold unpublish.
    destruct (truthy (prop entity PUBLISHED_AT_ATTRIBUTE)) eqn:Ht;
      [| exfalso; apply Hpub, Hnull; reflexivity].
    cbn [negb]. unfold buildDeepPopulate, emitEvent, call_. cbn [bind run].
    rewrite E1. cbn [bind run]. rewrite E2. cbn [bind run].
    fold params. rewrite E3. cbn [bind run]. rewrite E4. cbn [bind run].
    rewrite E5. cbn [bind run member]. fold payload. rewrite E6. cbn [bind run].
    rewrite mapEntity_entry. cbn [bind run].
    destruct (h IsWebhooksPopulateRelationsEnabled w6) as [[flag' | e] w7] eqn:E7;
      cbn [bind run].
    + destruct (truthy flag') eqn:Hflag.
      * cbn [run].
        destruct (h (GetDeepRelationsCount (VObj (remap updated)) uid) w7)
          as [[counts | e] w8];
          eexists _, _, [_; _]; (split; [reflexivity |]);
          (split; [reflexivity |]); (split; [reflexivity |]);
          intros f w9 [= <- <-] Hf; rewrite Hf in Hflag; discriminate Hflag.
      * cbn [run]. eexists _, _, [_]. split; [reflexivity |].
        split; [reflexivity |]. split; [reflexivity |].
        intros f w9 [= <- <-] _. repeat split; reflexivity.
    + eexists _, _, [_]. split; [reflexivity |].
      split; [reflexivity |]. split; [reflexivity |].
      intros f w9 H. discriminate H.
Qed.

(** *** Identifier remapping *)

Lemma remap_no_documentId (o : obj) :
  truthy (prop o "documentId") = false -> remap o = o.
Proof. unfold remap. intros ->. reflexivity. Qed.

Lemma remap_documentId (o : obj) : prop (remap o) "documentId" = VUndef \/ remap o = o.
Proof.
  unfold remap. destruct (truthy (prop o "documentId")); [left | right; reflexivity].
  unfold prop. rewrite lookup_delete_eq. reflexivity.
Qed.

Lemma remap_idempotent (o : obj) : remap (remap o) = remap o.
Proof.
  destruct (remap_documentId o) as [H | H].
  - apply remap_no_documentId. rewrite H. reflexivity.
  - rewrite !H. reflexivity.
Qed.

Lemma mapM_mapEntity_entries (es : list value) (uid : string) :
  Forall (fun e => is_entry e = true) es ->
  mapM (fun entity => mapEntity entity uid) es = Ret (remap_value <$> es).
Proof.
  induction 1 as [| e es He _ IH]; [reflexivity |].
  destruct e; try discriminate He. cbn [mapM].
  rewrite mapEntity_entry, IH. reflexivity.
Qed.

(** C7: remapping twice is remapping once; an entry without a
    [documentId] field is returned as it is; on a list response every
    element is remapped at its own position and every other field of the
    response, the pagination among them, is left as it was. *)
Theorem mapEntity_idempotent_order_preserving
    (entity : value) (o r : obj) (es : list value) (uid : string) :
  o !! "documentId" = None ->
  r !! "results" = Some (VArr es) ->
  Forall (fun e => is_entry e = true) es ->
  (let* e := mapEntity entity uid in mapEntity e uid) = mapEntity entity uid
  /\ mapEntity (VObj o) uid = Ret (VObj o)
  /\ mapEntitiesResponse (VObj r) uid
     = Ret (VObj (<["results" := VArr (remap_value <$> es)]> r))
  /\ length (remap_value <$> es) = length es
  /\ (forall (i : nat) (e : value),
        es !! i = Some e ->
        mapEntity e uid = Ret (remap_value e)
        /\ (remap_value <$> es) !! i = Some (remap_value e))
  /\ (forall k : string,
        k <> "results" ->
        (<["results" := VArr (remap_value <$> es)]> r) !! k = r !! k).
Proof.
  intros Ho Hr Hes. repeat split.
  - destruct entity; try reflexivity.
    rewrite mapEntity_entry. cbn [bind]. rewrite mapEntity_entry, remap_idempotent.
    reflexivity.
  - rewrite mapEntity_entry, remap_no_documentId; [reflexivity |].
    unfold prop. rewrite Ho. reflexivity.
  - unfold mapEntitiesResponse, mapAsync. cbn [optional_member spread].
    unfold prop. rewrite Hr. cbn [default from_option id truthy as_iterable bind].
    rewrite mapM_mapEntity_entries by exact Hes. reflexivity.
  - apply length_fmap.
  - rewrite Forall_forall in Hes. apply list_elem_of_lookup_2 in H.
    specialize (Hes e H). destruct e; try discriminate Hes. apply mapEntity_entry.
  - rewrite list_lookup_fmap, H. reflexivity.
  - intros k Hk. apply lookup_insert_ne. congruence.
Qed.

(** *** Reading *)

Lemma findOne_absent_type_error
    {W : Type} (h : handler W) (w w1 : W) (id opts : value) (uid : string) :
  h (DocumentsFindOne uid id (default_to (VObj ∅) opts)) w = (Fulfilled VNull, w1) ->
  run h (findOne id uid opts) w
  = (Throws TypeError, w1,
     [(DocumentsFindOne uid id (default_to (VObj ∅) opts), Fulfilled VNull)]).
Proof. intros E. unfold findOne. simpl. rewrite E. reflexivity. Qed.

Lemma findOne_rejected
    {W : Type} (h : handler W) (w w1 : W) (id opts : value) (uid : string) (e : error) :
  h (DocumentsFindOne uid id (default_to (VObj ∅) opts)) w = (Rejected e, w1) ->
  run h (findOne id uid opts) w
  = (Throws e, w1, [(DocumentsFindOne uid id (default_to (VObj ∅) opts), Rejected e)]).
Proof. intros E. unfold findOne. simpl. rewrite E. reflexivity. Qed.

(** C5, as the code has it: when the lookup finds an entry, [findOne]
    returns that entry after identifier remapping: as it is when it has
    no [documentId], and otherwise with [documentId] promoted to [id], the
    previous [id] moved to [entryId] and [documentId] removed; a rejection
    of the lookup is what [findOne] throws. *)
Theorem findOne_returns_remapped_entry
    {W : Type} (h : handler W) (w w1 : W) (id opts : value) (uid : string) (o : obj) :
  h (DocumentsFindOne uid id (default_to (VObj ∅) opts)) w = (Fulfilled (VObj o), w1) ->
  run h (findOne id uid opts) w
  = (Returns (VObj (remap o)), w1,
     [(DocumentsFindOne uid id (default_to (VObj ∅) opts), Fulfilled (VObj o))])
  /\ (truthy (prop o "documentId") = false -> remap o = o)
  /\ (truthy (prop o "documentId") = true ->
      prop (remap o) "id" = prop o "documentId"
      /\ prop (remap o) "entryId" = prop o "id"
      /\ remap o !! "documentId" = None
      /\ forall k : string,
           k <> "id" -> k <> "entryId" -> k <> "documentId" -> remap o !! k = o !! k)
  /\ (forall (w0 w2 : W) (e : error),
        h (DocumentsFindOne uid id (default_to (VObj ∅) opts)) w0 = (Rejected e, w2) ->
        run h (findOne id uid opts) w0
        = (Throws e, w2,
           [(DocumentsFindOne uid id (default_to (VObj ∅) opts), Rejected e)])).
Proof.
  intros E. split; [| split; [| split]]; [| | | intros w0 w2 e; apply findOne_rejected].
  - unfold findOne, call_. cbn [bind run]. rewrite E. cbn [bind].
    rewrite mapEntity_entry. reflexivity.
  - apply remap_no_documentId.
  - intros T. unfold remap. rewrite T. unfold prop. repeat split.
    + rewrite lookup_delete_ne by discriminate. rewrite lookup_insert_eq.
      reflexivity.
    + rewrite lookup_delete_ne by discriminate.
      rewrite lookup_insert_ne by discriminate. rewrite lookup_insert_eq. reflexivity.
    + apply lookup_delete_eq.
    + intros k K1 K2 K3. rewrite lookup_delete_ne by congruence.
      rewrite !lookup_insert_ne by congruence. reflexivity.
Qed.

(** *** Pagination *)

Lemma number_or_truthy (v : value) (d : float) :
  truthy (VNum d) = true -> truthy (VNum (number_or StringToNumber ObjectToNumber v d)) = true.
Proof.
  intros Hd. unfold number_or.
  destruct (truthy (VNum (ToNumber StringToNumber ObjectToNumber v))) eqn:E; assumption.
Qed.

Lemma number_or_falsy (v : value) (d : float) :
  truthy (VNum (ToNumber StringToNumber ObjectToNumber v)) = false ->
  number_or StringToNumber ObjectToNumber v d = d.
Proof. unfold number_or. intros ->. reflexivity. Qed.

Lemma truthy_number (n : float) :
  truthy (VNum n) = true <-> PrimFloat.eqb n 0 = false /\ is_nan n = false.
Proof.
  simpl. destruct (PrimFloat.eqb n 0), (is_nan n); simpl; split;
    try intros [? ?]; intros; try split; congruence.
Qed.

Lemma findPage_result
    {W : Type} (h : handler W) (w w1 w2 : W)
    (opts : value) (uid : string) (docs : list value) (total : value) :
  h (DocumentsFindMany uid opts) w = (Fulfilled (VArr docs), w1) ->
  h (DocumentsCount uid opts) w1 = (Fulfilled total, w2) ->
  Forall (fun e => is_entry e = true) docs ->
  run h (findPage StringToNumber ObjectToNumber opts uid) w
  = (Returns
       (VObj {[ "results" := VArr (remap_value <$> docs);
                "pagination" :=
                  VObj {[ "page" := VNum (findPage_page StringToNumber ObjectToNumber opts);
                          "pageSize" :=
                            VNum (findPage_pageSize StringToNumber ObjectToNumber opts);
                          "pageCount" :=
                            VNum (Math_ceil
                                    (PrimFloat.div
                                       (ToNumber StringToNumber ObjectToNumber
                                          (default_to (VNum 0) total))
                                       (findPage_pageSize StringToNumber ObjectToNumber opts)));
                          "total" := default_to (VNum 0) total ]} ]}),
     w2,
     [(DocumentsFindMany uid opts, Fulfilled (VArr docs));
      (DocumentsCount uid opts, Fulfilled total)]).
Proof.
  intros E1 E2 Hdocs. unfold findPage, start. cbn [bind run]. rewrite E1.
  cbn [bind run]. rewrite E2. cbn [Promise_all bind nth].
  unfold mapEntitiesResponse, mapAsync. cbn [optional_member spread].
  unfold prop. rewrite lookup_insert_eq.
  cbn [default from_option id truthy as_iterable bind].
  rewrite mapM_mapEntity_entries by exact Hdocs. cbn [bind run].
  rewrite insert_insert_eq. reflexivity.
Qed.

(** C6: [page] and [pageSize] fall back to 1 and 10 when the option is
    missing or its numeric parse is NaN; the response carries
    [pageCount = ceil(total / pageSize)] next to [page], [pageSize] and
    [total]; page 2 of size 5 over 12 rows has 3 pages. *)
Theorem findPage_pagination
    {W : Type} (h : handler W) (w w1 w2 : W)
    (opts : value) (uid : string) (docs : list value) (total : value) :
  h (DocumentsFindMany uid opts) w = (Fulfilled (VArr docs), w1) ->
  h (DocumentsCount uid opts) w1 = (Fulfilled total, w2) ->
  Forall (fun e => is_entry e = true) docs ->
  let page := findPage_page StringToNumber ObjectToNumber opts in
  let pageSize := findPage_pageSize StringToNumber ObjectToNumber opts in
  let total' := default_to (VNum 0) total in
  let pagination :=
    VObj {[ "page" := VNum page;
            "pageSize" := VNum pageSize;
            "pageCount" :=
              VNum (Math_ceil
                      (PrimFloat.div (ToNumber StringToNumber ObjectToNumber total') pageSize));
            "total" := total' ]} in
  run h (findPage StringToNumber ObjectToNumber opts uid) w
  = (Returns (VObj {[ "results" := VArr (remap_value <$> docs);
                      "pagination" := pagination ]}),
     w2,
     [(DocumentsFindMany uid opts, Fulfilled (VArr docs));
      (DocumentsCount uid opts, Fulfilled total)])
  /\ (optional_member opts "page" = VUndef -> page = 1%float)
  /\ (optional_member opts "pageSize" = VUndef -> pageSize = 10%float)
  /\ (is_nan (ToNumber StringToNumber ObjectToNumber (optional_member opts "page")) = true ->
      page = 1%float)
  /\ (is_nan (ToNumber StringToNumber ObjectToNumber (optional_member opts "pageSize")) = true ->
      pageSize = 10%float)
  /\ (optional_member opts "page" = VNum 2 ->
      optional_member opts "pageSize" = VNum 5 ->
      total = VNum 12 ->
      pagination
      = VObj {[ "page" := VNum 2; "pageSize" := VNum 5;
                "pageCount" := VNum 3; "total" := VNum 12 ]}).
Proof.
  intros E1 E2 Hdocs page pageSize total' pagination.
  assert (Hnan : forall (v : value) (d : float),
             is_nan (ToNumber StringToNumber ObjectToNumber v) = true ->
             number_or StringToNumber ObjectToNumber v d = d).
  { intros v d Hv. apply number_or_falsy. simpl. rewrite Hv.
    apply negb_false_iff, orb_true_r. }
  repeat split.
  - exact (findPage_result h w w1 w2 opts uid docs total E1 E2 Hdocs).
  - intros Hp. subst page. unfold findPage_page. rewrite Hp. reflexivity.
  - intros Hp. subst pageSize. unfold findPage_pageSize. rewrite Hp. reflexivity.
  - apply Hnan.
  - apply Hnan.
  - intros Hp Hs Ht. subst pagination page pageSize total'.
    unfold findPage_page, findPage_pageSize. rewrite Hp, Hs, Ht. reflexivity.
Qed.

(** C9: a [page] or [pageSize] whose numeric parse is falsy (0, -0 or
    NaN) is replaced by the default, so both are always non-zero numbers
    and [total / pageSize] never divides by zero; the [pageSize] a response
    carries is that non-zero number. *)
Theorem findPage_pageSize_never_zero
    {W : Type} (h : handler W) (w : W) (opts : value) (uid : string) :
  let parsed k := ToNumber StringToNumber ObjectToNumber (optional_member opts k) in
  let page := findPage_page StringToNumber ObjectToNumber opts in
  let pageSize := findPage_pageSize StringToNumber ObjectToNumber opts in
  (PrimFloat.eqb pageSize 0 = false /\ is_nan pageSize = false)
  /\ (PrimFloat.eqb page 0 = false /\ is_nan page = false)
  /\ (PrimFloat.eqb (parsed "pageSize") 0 = true -> pageSize = 10%float)
  /\ (PrimFloat.eqb (parsed "page") 0 = true -> page = 1%float)
  /\ (truthy (VNum (parsed "pageSize")) = false -> pageSize = 10%float)
  /\ (truthy (VNum (parsed "page")) = false -> page = 1%float)
  /\ (forall result : value,
        (run h (findPage StringToNumber ObjectToNumber opts uid) w).1.1 = Returns result ->
        optional_member (optional_member result "pagination") "pageSize" = VNum pageSize).
Proof.
  intros parsed page pageSize.
  assert (Hzero : forall (v : value) (d : float),
             PrimFloat.eqb (ToNumber StringToNumber ObjectToNumber v) 0 = true ->
             number_or StringToNumber ObjectToNumber v d = d).
  { intros v d Hv. apply number_or_falsy. simpl. rewrite Hv. reflexivity. }
  split; [| split; [| split; [| split; [| split; [| split]]]]].
  - apply truthy_number, number_or_truthy. reflexivity.
  - apply truthy_number, number_or_truthy. reflexivity.
  - apply Hzero.
  - apply Hzero.
  - apply number_or_falsy.
  - apply number_or_falsy.
  - intros result. unfold findPage, start. cbn [bind run].
    destruct (h (DocumentsFindMany uid opts) w) as [documents_p w1].
    cbn [bind run].
    destruct (h (DocumentsCount uid opts) w1) as [total_p w2].
    destruct documents_p as [documents | e]; [| discriminate].
    destruct total_p as [total | e]; [| discriminate].
    cbn [Promise_all bind nth].
    unfold mapEntitiesResponse, mapAsync. cbn [optional_member spread].
    unfold prop at 1 2. rewrite lookup_insert_eq. cbn [default from_option id].
    destruct (truthy documents) eqn:Hdocs.
    + destruct documents as [| | b | n | s | ms | l | o];
        try (simpl; discriminate).
      all: cbn [as_iterable bind]; rewrite !run_bind.
      all: match goal with
           | |- context [run ?g (mapM ?f ?xs) ?w0] =>
               destruct (run g (mapM f xs) w0) as [[[ys | e] w3] t]
           end; simpl; intros H; inversion H.
      all: reflexivity.
    + unfold mapEntity. unfold prop. rewrite lookup_insert_ne by discriminate.
      rewrite lookup_singleton_ne by discriminate.
      simpl. intros H. inversion H. reflexivity.
Qed.

(** *** Writing one entry *)

(** C4: whatever the caller supplies, the data [create] hands to the
    store has [publishedAt = null] and is the caller's data everywhere
    else; in every environment [create] writes at most once, and once when
    it returns.  As soon as the populate specification is built, [create]
    does write: its next call is the creation of the entry with that data,
    and no other creation follows; when the store answers the created entry
    and the flag is off, [create] returns it, remapped. *)
Theorem create_forces_draft
    {W : Type} (h : handler W) (w : W) (body : obj) (uid : string) :
  let data := <[PUBLISHED_AT_ATTRIBUTE := VNull]> body in
  data !! PUBLISHED_AT_ATTRIBUTE = Some VNull
  /\ (forall k : string, k <> PUBLISHED_AT_ATTRIBUTE -> data !! k = body !! k)
  /\ (let '(r, _, t) := run h (create body uid) w in
      Forall (fun c => c.1 = uid /\ optional_member c.2 "data" = VObj data)
             (document_creates t)
      /\ length (document_creates t) <= 1
      /\ (is_returns r = true -> length (document_creates t) = 1))
  /\ (forall (flag populate : value) (w1 w2 : W),
        let write :=
          DocumentsCreate uid (VObj {[ "data" := VObj data; "populate" := populate ]}) in
        h IsWebhooksPopulateRelationsEnabled w = (Fulfilled flag, w1) ->
        h (PopulateBuilder uid (negb (truthy flag))) w1 = (Fulfilled populate, w2) ->
        exists (r : completion value) (w' : W) (rest : trace),
          run h (create body uid) w
          = (r, w',
             [(IsWebhooksPopulateRelationsEnabled, Fulfilled flag);
              (PopulateBuilder uid (negb (truthy flag)), Fulfilled populate);
              (write, (h write w2).1)]
             ++ rest)
          /\ document_creates rest = []
          /\ (forall (created : obj) (flag' : value) (w3 w4 : W),
                h write w2 = (Fulfilled (VObj created), w3) ->
                h IsWebhooksPopulateRelationsEnabled w3 = (Fulfilled flag', w4) ->
                truthy flag' = false ->
                r = Returns (VObj (remap created))
                /\ w' = w4
                /\ rest = [(IsWebhooksPopulateRelationsEnabled, Fulfilled flag')])).
Proof.
  intros data. split; [apply lookup_insert_eq |]. split; [| split].
  - intros k Hk. apply lookup_insert_ne. congruence.
  - unfold create. simpl.
    run_all; repeat split; auto; try discriminate; repeat constructor; auto.
  - intros flag populate w1 w2 write E1 E2.
    unfold create, buildDeepPopulate, call_. cbn [bind run].
    rewrite E1. cbn [bind run]. rewrite E2. cbn [bind run].
    fold data. fold write.
    destruct (h write w2) as [[answered | e] w3] eqn:E3; cbn [bind run fst];
      [destruct answered as [| | b | n | s | ms | l | created];
       try rewrite mapEntity_entry; cbn [mapEntity bind run] |].
    all: repeat match goal with
           | |- context [match ?f ?c ?w0 with _ => _ end] =>
               destruct (f c w0) as [[? | ?] ?] eqn:?; cbn [bind run]
           | |- context [if truthy ?x then _ else _] =>
               destruct (truthy x) eqn:?; cbn [bind run]
           end.
    all: eexists _, _, _; (split; [reflexivity |]); (split; [reflexivity |]).
    all: intros c f w6 w7 H1 H2 Hf; inversion H1; subst; clear H1.
    all: match goal with
         | E : ?f IsWebhooksPopulateRelationsEnabled ?w0 = _,
           H : ?f IsWebhooksPopulateRelationsEnabled ?w0 = _ |- _ =>
             rewrite E in H; inversion H; subst; clear H
         end.
    all: try congruence.
    all: repeat split; reflexivity.
Qed.

(** C8: the patch [update] hands to the store is the caller's patch
    without [id] and without [publishedAt]; applying it leaves the
    [publishedAt] of the stored entry as it was; [update] issues no other
    write. *)
Theorem update_strips_id_and_publishedAt
    {W : Type} (h : handler W) (w : W) (document body : obj) (uid : string) :
  let data := delete "id" (omitPublishedAtField body) in
  data !! "id" = None
  /\ data !! PUBLISHED_AT_ATTRIBUTE = None
  /\ (forall k : string,
        k <> "id" -> k <> PUBLISHED_AT_ATTRIBUTE -> data !! k = body !! k)
  /\ (forall stored : obj,
        (data ∪ stored) !! PUBLISHED_AT_ATTRIBUTE = stored !! PUBLISHED_AT_ATTRIBUTE)
  /\ (let '(r, _, t) := run h (update document body uid) w in
      Forall (fun u => u.1 = (uid, prop document "id")
                       /\ optional_member u.2 "data" = VObj data)
             (document_updates t)
      /\ length (document_updates t) <= 1
      /\ (is_returns r = true -> length (document_updates t) = 1)
      /\ document_creates t = [] /\ entity_updates t = [] /\ bulk_updates t = []).
Proof.
  intros data.
  assert (Hpub : data !! PUBLISHED_AT_ATTRIBUTE = None).
  { subst data. unfold omitPublishedAtField.
    rewrite lookup_delete_ne by discriminate. apply lookup_delete_eq. }
  split; [apply lookup_delete_eq |]. split; [exact Hpub |]. split; [| split].
  - intros k K1 K2. subst data. unfold omitPublishedAtField.
    rewrite !lookup_delete_ne by congruence. reflexivity.
  - intros stored. apply lookup_union_r. exact Hpub.
  - unfold update. simpl.
    run_all; repeat split; auto; try discriminate; repeat constructor; auto.
Qed.

(** *** Publishing many entries *)

Lemma Promise_all_cases (ps : list outcome) :
  (exists vs, Promise_all ps = Ret vs /\ ps = Fulfilled <$> vs)
  \/ (exists e, Promise_all ps = Throw e /\ Rejected e ∈ ps).
Proof.
  induction ps as [| [v | e] ps IH].
  - left. exists []. split; reflexivity.
  - destruct IH as [(vs & Hvs & ->) | (e & He & Hin)].
    + left. exists (v :: vs). simpl. rewrite Hvs. split; reflexivity.
    + right. exists e. simpl. rewrite He. split; [reflexivity | now right].
  - right. exists e. split; [reflexivity | now left].
Qed.


Section Validations.

Context {W : Type} (h : handler W) (uid : string).

(** What a run of the validations leaves behind: only model lookups
    and validator calls; when the array of promises is built, each
    promise is the answer of the validator on the entity at its
    position; otherwise a model lookup threw. *)
Lemma run_validations (entities : list obj) :
  forall (w w' : W) (r : completion (list outcome)) (t : trace),
    run h (validations entities uid) w = (r, w', t) ->
    Forall (fun ev => is_validation_call ev.1 = true) t
    /\ match r with
       | Returns promises =>
           Forall2 (fun entity p =>
                      exists modelDef w0 w1,
                        h (ValidateEntityCreation modelDef (VObj entity) VUndef
                             (VObj entity)) w0 = (p, w1)
                        /\ (ValidateEntityCreation modelDef (VObj entity) VUndef
                              (VObj entity), p) ∈ t)
                   entities promises
       | Throws e => exists c, is_validation_call c = true /\ (c, Rejected e) ∈ t
       end.
Proof.
  induction entities as [| entity entities IH]; intros w w' r t.
  - simpl. intros [= <- <- <-]. split; constructor.
  - unfold validations. cbn [mapM]. fold (validations entities uid).
    unfold call_, start. cbn [bind run].
    destruct (h (GetModel uid) w) as [[modelDef | e] w1] eqn:E1; cbn [bind run].
    + destruct (h (ValidateEntityCreation modelDef (VObj entity) VUndef (VObj entity)) w1)
        as [p w2] eqn:E2.
      rewrite run_bind.
      destruct (run h (validations entities uid) w2) as [[r' w3] t'] eqn:Hrun.
      specialize (IH _ _ _ _ Hrun) as [IHt IHr].
      destruct r' as [promises | e]; cbn [run]; intros [= <- <- <-].
      * split; [repeat constructor; rewrite app_nil_r; exact IHt |].
        constructor.
        -- exists modelDef, w1, w2. split; [exact E2 |]. right. now left.
        -- eapply Forall2_impl; [exact IHr |].
           intros x y (m & w0 & w4 & Hh & Hin). exists m, w0, w4.
           split; [exact Hh |]. right. right. rewrite app_nil_r. exact Hin.
      * split; [repeat constructor; exact IHt |].
        destruct IHr as (c & Hc & Hin). exists c. split; [exact Hc |].
        right. right. exact Hin.
    + intros [= <- <- <-]. split; [repeat constructor |].
      exists (GetModel uid). split; [reflexivity | now left].
Qed.

End Validations.

Lemma validation_trace_quiet (t : trace) :
  Forall (fun ev => is_validation_call ev.1 = true) t ->
  bulk_updates t = [] /\ emitted t = [].
Proof.
  induction 1 as [| [c o] t Hc _ [IH1 IH2]]; [split; reflexivity |].
  unfold bulk_updates, emitted in *. cbn [omap list_omap]. rewrite IH1, IH2.
  destruct c; try discriminate Hc; split; reflexivity.
Qed.


Section EmitEvents.

Context {W : Type} (h : handler W) (uid event : string).

(** One [emitEvent], started and left to settle: it emits at most one
    event, of the given name, exactly one when it is fulfilled, and
    writes nothing. *)
Lemma run_emitEvent (entity : value) :
  forall (w w' : W) (r : completion outcome) (t : trace),
    run h (attempt (emitEvent uid event entity)) w = (r, w', t) ->
    bulk_updates t = []
    /\ Forall (fun ev => ev.1 = event) (emitted t)
    /\ exists p, r = Returns p
                 /\ match p with
                    | Fulfilled _ => length (emitted t) = 1
                    | Rejected _ => length (emitted t) <= 1
                    end.
Proof.
  intros w w' r t. unfold emitEvent. simpl.
  run_all; intros [= <- <- <-]; repeat split; repeat constructor;
    eexists; split; try reflexivity; simpl; auto.
Qed.

Lemma run_emit_all (l : list value) :
  forall (w w' : W) (r : completion (list outcome)) (t : trace),
    run h (mapM (fun entity => attempt (emitEvent uid event entity)) l) w = (r, w', t) ->
    bulk_updates t = []
    /\ Forall (fun ev => ev.1 = event) (emitted t)
    /\ exists ps, r = Returns ps
                  /\ (forall vs, ps = Fulfilled <$> vs -> length (emitted t) = length l).
Proof.
  induction l as [| entity l IH]; intros w w' r t.
  - simpl. intros [= <- <- <-]. repeat split; try constructor.
    exists []. split; reflexivity.
  - cbn [mapM]. rewrite run_bind.
    destruct (run h (attempt (emitEvent uid event entity)) w) as [[r1 w1] t1] eqn:H1.
    destruct (run_emitEvent entity _ _ _ _ H1) as (B1 & F1 & p & -> & L1).
    rewrite run_bind.
    destruct (run h (mapM (fun entity => attempt (emitEvent uid event entity)) l) w1)
      as [[r2 w2] t2] eqn:H2.
    destruct (IH _ _ _ _ H2) as (B2 & F2 & ps & -> & L2).
    cbn [run]. intros [= <- <- <-]. rewrite app_nil_r.
    unfold bulk_updates, emitted in *. rewrite !omap_app.
    rewrite B1, B2. split; [reflexivity |].
    split; [apply Forall_app; split; assumption |].
    exists (p :: ps). split; [reflexivity |].
    intros vs Hvs. destruct vs as [| v vs]; [discriminate Hvs |].
    injection Hvs as -> Hps. rewrite length_app, L1, (L2 vs Hps). reflexivity.
Qed.

Lemma run_emitEvents (entities : value) :
  forall (w w' : W) (r : completion (list value)) (t : trace),
    run h (emitEvents uid event entities) w = (r, w', t) ->
    bulk_updates t = []
    /\ Forall (fun ev => ev.1 = event) (emitted t)
    /\ (is_returns r = true ->
        exists l, entities = VArr l /\ length (emitted t) = length l).
Proof.
  intros w w' r t. unfold emitEvents.
  destruct entities as [| | b | n | s | ms | l | o];
    try (simpl; intros [= <- <- <-]; repeat split; try constructor; discriminate).
  cbn [as_array bind]. rewrite run_bind.
  destruct (run h (mapM (fun entity => attempt (emitEvent uid event entity)) l) w)
    as [[r1 w1] t1] eqn:H1.
  destruct (run_emit_all l _ _ _ _ H1) as (B & F & ps & -> & L).
  destruct (Promise_all_cases ps) as [(vs & Hvs & Hps) | (e & He & _)].
  - rewrite Hvs. cbn [run]. intros [= <- <- <-]. rewrite app_nil_r.
    split; [exact B |]. split; [exact F |]. intros _. exists l.
    split; [reflexivity | exact (L vs Hps)].
  - rewrite He. cbn [run]. intros [= <- <- <-]. rewrite app_nil_r.
    split; [exact B |]. split; [exact F |]. discriminate.
Qed.

End EmitEvents.

Lemma filter_drafts_all_published (entities : list obj) :
  Forall (fun e => truthy (prop e PUBLISHED_AT_ATTRIBUTE) = true) entities ->
  List.filter (fun entity => negb (truthy (prop entity PUBLISHED_AT_ATTRIBUTE))) entities = [].
Proof.
  induction 1 as [| e es He _ IH]; [reflexivity |].
  cbn [List.filter]. rewrite He. exact IH.
Qed.

Lemma bulk_updates_app (t1 t2 : trace) :
  bulk_updates (t1 ++ t2) = bulk_updates t1 ++ bulk_updates t2.
Proof. apply omap_app. Qed.

Lemma emitted_app (t1 t2 : trace) : emitted (t1 ++ t2) = emitted t1 ++ emitted t2.
Proof. apply omap_app. Qed.

Lemma bulk_updates_cons (c : call) (o : outcome) (t : trace) :
  bulk_updates ((c, o) :: t)
  = match c with
    | DbQueryUpdateMany uid params => (uid, params) :: bulk_updates t
    | _ => bulk_updates t
    end.
Proof. destruct c; reflexivity. Qed.

Lemma emitted_cons (c : call) (o : outcome) (t : trace) :
  emitted ((c, o) :: t)
  = match c with
    | EventHubEmit event payload => (event, payload) :: emitted t
    | _ => emitted t
    end.
Proof. destruct c; reflexivity. Qed.

(** C1, as the code has it: there is no early return when every entry
    is already published.  On a non-empty list of published entries
    [publishMany] still issues its bulk update, with an empty identifier
    list as filter, and at most once; a call that returns has issued it
    exactly once, returns what that update answered, has re-fetched with
    the same empty filter, and has emitted one publish event for each
    entry the re-fetch returned. *)
Theorem publishMany_all_published
    {W : Type} (h : handler W) (w : W) (entities : list obj) (uid : string) :
  entities <> [] ->
  Forall (fun e => truthy (prop e PUBLISHED_AT_ATTRIBUTE) = true) entities ->
  let '(r, _, t) := run h (publishMany ENTRY_PUBLISH entities uid) w in
  Forall (fun u => u.1 = uid /\ optional_member u.2 "where" = ids_filter [])
         (bulk_updates t)
  /\ length (bulk_updates t) <= 1
  /\ Forall (fun ev => ev.1 = ENTRY_PUBLISH) (emitted t)
  /\ (forall count : value,
        r = Returns count ->
        length (bulk_updates t) = 1
        /\ (exists params, (DbQueryUpdateMany uid params, Fulfilled count) ∈ t)
        /\ exists populate refetched,
             (EntityServiceFindMany uid
                (VObj {[ "filters" := ids_filter []; "populate" := populate ]}),
              Fulfilled (VArr refetched)) ∈ t
             /\ length (emitted t) = length refetched).
Proof.
  intros Hne Hpub.
  destruct (run h (publishMany ENTRY_PUBLISH entities uid) w) as [[r w'] t] eqn:Hrun.
  revert Hrun. unfold publishMany.
  destruct entities as [| entity entities]; [contradiction |].
  cbn [length Nat.eqb]. set (es := entity :: entities) in *.
  rewrite (filter_drafts_all_published es Hpub). cbn [map].
  rewrite run_bind.
  destruct (run h (validations es uid) w) as [[r1 w1] t1] eqn:Hval.
  destruct (run_validations h uid es _ _ _ _ Hval) as [Ht _].
  destruct (validation_trace_quiet t1 Ht) as [B1 M1].
  destruct r1 as [promises | e];
    [| intros [= <- <- <-]; rewrite B1, M1; repeat split; intros;
       try discriminate; try (simpl; lia); constructor].
  rewrite run_bind.
  destruct (Promise_all_cases promises) as [(vs & -> & _) | (e & -> & _)];
    [| cbn [run]; intros [= <- <- <-]; rewrite app_nil_r, B1, M1; repeat split; intros;
       try discriminate; try (simpl; lia); constructor].
  cbn [run]. unfold buildDeepPopulate, call_. cbn [bind run].
  repeat call_step;
    try (intros [= <- <- <-];
         rewrite bulk_updates_app, emitted_app, ?bulk_updates_cons, ?emitted_cons, B1, M1;
         cbn [app bulk_updates emitted omap list_omap length];
         repeat split; intros; try discriminate; try lia; repeat constructor; fail).
  rewrite run_bind.
  match goal with
  | |- context [run h (emitEvents ?u ?ev ?x) ?w0] =>
      destruct (run h (emitEvents u ev x) w0) as [[r5 w6] t5] eqn:Hem;
      destruct (run_emitEvents h u ev x _ _ _ _ Hem) as (B5 & F5 & L5)
  end.
  destruct r5 as [done | e]; cbn [run]; intros [= <- <- <-];
    rewrite bulk_updates_app, emitted_app, ?bulk_updates_cons, ?emitted_cons,
      ?bulk_updates_app, ?emitted_app, B1, M1, B5;
    cbn [app length bulk_updates emitted omap list_omap];
    rewrite ?app_nil_r.
  all: repeat split; intros; try discriminate; try lia; try (repeat constructor; fail);
    try assumption.
  all: match goal with H : Returns _ = Returns _ |- _ => injection H as <- end.
  - eexists. rewrite elem_of_app, !elem_of_cons. right. do 3 right. left. reflexivity.
  - destruct (L5 eq_refl) as (l & -> & Hl).
    eexists. exists l. split; [| exact Hl].
    rewrite elem_of_app, !elem_of_cons. right. do 4 right. left. reflexivity.
Qed.
End Properties.

(** ** The service on the reference environment *)

(** A closed equation, decided by evaluating its left-hand side. *)
Ltac by_evaluation :=
  cbv zeta;
  lazymatch goal with
  | |- _ = ?rhs => vm_cast_no_check (@eq_refl _ rhs)
  end.

Lemma unpublish_already_draft_atomic_witness :
  truthy (prop (Demo.draft 1 "a") PUBLISHED_AT_ATTRIBUTE) = false
  /\ run Demo.handle (unpublish Demo.ENTRY_UNPUBLISH (Demo.draft 1 "a") article None)
         [Demo.draft 1 "a"]
     = (Throws (ApplicationError "already.draft"), [Demo.draft 1 "a"], []).
Proof.
  split; [reflexivity |].
  apply (unpublish_already_draft_atomic Demo.ENTRY_UNPUBLISH Demo.handle).
  reflexivity.
Defined.

Lemma unpublish_published_or_already_draft_witness :
  let entity := Demo.published 1 "a" in
  let unpublished := Demo.draft 1 "a" in
  let modelDef : obj := {[ "uid" := VStr article; "modelName" := VStr "article" ]} in
  let params := VObj {[ "data" := VObj {[ PUBLISHED_AT_ATTRIBUTE := VNull ]};
                        "populate" := VObj ∅ ]} in
  let payload := VObj {[ "model" := VStr "article"; "entry" := VObj unpublished ]} in
  nullable_timestamp (prop entity PUBLISHED_AT_ATTRIBUTE) = true
  /\ prop entity PUBLISHED_AT_ATTRIBUTE <> VNull
  /\ run Demo.handle (unpublish Demo.ENTRY_UNPUBLISH entity article None) [entity]
     = (Returns (VObj unpublished), [unpublished],
        [(IsWebhooksPopulateRelationsEnabled, Fulfilled (VBool false));
         (PopulateBuilder article true, Fulfilled (VObj ∅));
         (EntityServiceUpdate article (VNum 1) params, Fulfilled (VObj unpublished));
         (GetModel article, Fulfilled (VObj modelDef));
         (DefaultSanitizeOutput (VObj modelDef) (VObj unpublished),
          Fulfilled (VObj unpublished));
         (EventHubEmit Demo.ENTRY_UNPUBLISH payload, Fulfilled VUndef);
         (IsWebhooksPopulateRelationsEnabled, Fulfilled (VBool false))]).
Proof.
  intros entity unpublished modelDef params payload.
  split; [reflexivity |]. split; [discriminate |].
  destruct (unpublish_published_or_already_draft Demo.ENTRY_UNPUBLISH Demo.handle
              [entity] entity article None eq_refl) as (_ & _ & H).
  destruct (H ltac:(discriminate) (VBool false) (VObj ∅) (VObj unpublished) VUndef
              unpublished modelDef
              [entity] [entity] [unpublished] [unpublished] [unpublished] [unpublished]
              eq_refl eq_refl ltac:(by_evaluation) eq_refl ltac:(by_evaluation)
              ltac:(by_evaluation))
    as (r & w' & rest & Hrun & _ & _ & Hret).
  destruct (Hret (VBool false) [unpublished] eq_refl eq_refl) as (-> & -> & ->).
  rewrite Hrun. by_evaluation.
Defined.

Lemma create_forces_draft_witness :
  let body := Demo.published 7 "new" in
  let created := Demo.draft 7 "new" in
  let write :=
    DocumentsCreate article (VObj {[ "data" := VObj created; "populate" := VObj ∅ ]}) in
  run Demo.handle (create body article) []
  = (Returns (VObj created), [created],
     [(IsWebhooksPopulateRelationsEnabled, Fulfilled (VBool false));
      (PopulateBuilder article true, Fulfilled (VObj ∅));
      (write, Fulfilled (VObj created));
      (IsWebhooksPopulateRelationsEnabled, Fulfilled (VBool false))]).
Proof.
  intros body created write.
  destruct (create_forces_draft Demo.handle [] body article) as (_ & _ & _ & H).
  destruct (H (VBool false) (VObj ∅) [] [] eq_refl eq_refl)
    as (r & w' & rest & Hrun & _ & Hret).
  destruct (Hret created (VBool false) [created] [created]
              ltac:(by_evaluation) eq_refl eq_refl) as (-> & -> & ->).
  rewrite Hrun. by_evaluation.
Defined.

(** The published entry of the example is unpublished and one event goes
    out. *)
Example unpublish_published_entry :
  let x :=
    run Demo.handle (unpublish Demo.ENTRY_UNPUBLISH (Demo.published 1 "a") article None)
        [Demo.published 1 "a"] in
  (x.1.1, x.1.2, emitted x.2)
  = (Returns (VObj (Demo.draft 1 "a")),
     [Demo.draft 1 "a"],
     [(Demo.ENTRY_UNPUBLISH,
       VObj {[ "model" := VStr "article"; "entry" := VObj (Demo.draft 1 "a") ]})]).
Proof. by_evaluation. Qed.

(** An entry whose [publishedAt] is missing is a draft for the guard. *)
Example unpublish_missing_publishedAt :
  unpublish Demo.ENTRY_UNPUBLISH {[ "id" := VNum 1 ]} article None
  = Throw (ApplicationError "already.draft").
Proof. reflexivity. Qed.

Lemma mapEntity_idempotent_order_preserving_witness :
  let o : obj := Demo.draft 3 "c" in
  let es := [VObj (Demo.document 1 "doc-1" "a"); VObj (Demo.document 2 "doc-2" "b")] in
  let r : obj := {[ "results" := VArr es;
                    "pagination" := VObj {[ "page" := VNum 1; "total" := VNum 2 ]} ]} in
  let es' := [VObj (<["entryId" := VNum 1]> (<["id" := VStr "doc-1"]> (Demo.published 1 "a")));
              VObj (<["entryId" := VNum 2]> (<["id" := VStr "doc-2"]> (Demo.published 2 "b")))] in
  mapEntity (VObj o) article = Ret (VObj o)
  /\ mapEntitiesResponse (VObj r) article = Ret (VObj (<["results" := VArr es']> r))
  /\ (<["results" := VArr es']> r) !! "pagination" = r !! "pagination".
Proof.
  intros o es r es'.
  destruct (mapEntity_idempotent_order_preserving VNull o r es article)
    as (_ & H2 & H3 & _ & _ & H6).
  - reflexivity.
  - reflexivity.
  - repeat constructor.
  - split; [exact H2 |]. split.
    + rewrite H3. vm_compute. reflexivity.
    + vm_compute. reflexivity.
Defined.

(** The lookup of the example finds an entry with a [documentId];
    [findOne] does not return it as it is. *)
Lemma findOne_unchanged_counterexample :
  let rows := [Demo.document 1 "doc-1" "a"] in
  let found := VObj (Demo.document 1 "doc-1" "a") in
  (Demo.handle (DocumentsFindOne article (VStr "doc-1") (VObj ∅)) rows).1 = Fulfilled found
  /\ (run Demo.handle (findOne (VStr "doc-1") article VUndef) rows).1.1 <> Returns found
  /\ (run Demo.handle (findOne (VStr "doc-1") article VUndef) rows).1.1
     = Returns (VObj (<["entryId" := VNum 1]>
                        (<["id" := VStr "doc-1"]> (Demo.published 1 "a")))).
Proof.
  intros rows found. split; [vm_compute; reflexivity |]. split.
  - intros H.
    apply (f_equal (fun r => match r with
                             | Returns v => truthy (optional_member v "documentId")
                             | Throws _ => false
                             end)) in H.
    vm_compute in H. discriminate H.
  - vm_compute. reflexivity.
Qed.

(** When the lookup finds nothing, the [null] it answers is not returned:
    [mapEntity] reads a property of it. *)
Example findOne_absent :
  run Demo.handle (findOne (VStr "doc-2") article VUndef) [Demo.document 1 "doc-1" "a"]
  = (Throws TypeError, [Demo.document 1 "doc-1" "a"],
     [(DocumentsFindOne article (VStr "doc-2") (VObj ∅), Fulfilled VNull)]).
Proof. apply findOne_absent_type_error. reflexivity. Qed.

Lemma findOne_returns_remapped_entry_witness :
  let rows := [Demo.document 1 "doc-1" "a"] in
  let o := Demo.document 1 "doc-1" "a" in
  Demo.handle (DocumentsFindOne article (VStr "doc-1") (default_to (VObj ∅) VUndef)) rows
  = (Fulfilled (VObj o), rows)
  /\ run Demo.handle (findOne (VStr "doc-1") article VUndef) rows
     = (Returns (VObj (remap o)), rows,
        [(DocumentsFindOne article (VStr "doc-1") (default_to (VObj ∅) VUndef),
          Fulfilled (VObj o))])
  /\ prop (remap o) "id" = VStr "doc-1"
  /\ prop (remap o) "entryId" = VNum 1
  /\ remap o !! "documentId" = None.
Proof.
  intros rows o.
  assert (E : Demo.handle (DocumentsFindOne article (VStr "doc-1")
                             (default_to (VObj ∅) VUndef)) rows
              = (Fulfilled (VObj o), rows)) by reflexivity.
  split; [exact E |].
  destruct (findOne_returns_remapped_entry Demo.handle rows rows (VStr "doc-1") VUndef
              article o E) as (H1 & _ & H3 & _).
  split; [exact H1 |].
  destruct (H3 eq_refl) as (Hid & Hentry & Hdoc & _).
  split; [rewrite Hid; reflexivity |]. split; [rewrite Hentry; reflexivity | exact Hdoc].
Defined.

Lemma findPage_pagination_witness :
  run Demo.handle (findPage Demo.StringToNumber Demo.ObjectToNumber page_two_of_five article)
      Demo.twelve_rows
  = (Returns
       (VObj {[ "results" := VArr (VObj <$> Demo.twelve_rows);
                "pagination" :=
                  VObj {[ "page" := VNum 2; "pageSize" := VNum 5;
                          "pageCount" := VNum 3; "total" := VNum 12 ]} ]}),
     Demo.twelve_rows,
     [(DocumentsFindMany article page_two_of_five,
       Fulfilled (VArr (VObj <$> Demo.twelve_rows)));
      (DocumentsCount article page_two_of_five, Fulfilled (VNum 12))]).
Proof.
  assert (E1 : Demo.handle (DocumentsFindMany article page_two_of_five) Demo.twelve_rows
               = (Fulfilled (VArr (VObj <$> Demo.twelve_rows)), Demo.twelve_rows))
    by reflexivity.
  assert (E2 : Demo.handle (DocumentsCount article page_two_of_five) Demo.twelve_rows
               = (Fulfilled (VNum 12), Demo.twelve_rows))
    by reflexivity.
  assert (E3 : Forall (fun e => is_entry e = true) (VObj <$> Demo.twelve_rows))
    by (apply Forall_fmap, Forall_true; reflexivity).
  destruct (findPage_pagination Demo.StringToNumber Demo.ObjectToNumber Demo.handle
              Demo.twelve_rows Demo.twelve_rows Demo.twelve_rows
              page_two_of_five article (VObj <$> Demo.twelve_rows) (VNum 12) E1 E2 E3)
    as (H & _ & _ & _ & _ & Hpage).
  rewrite H. rewrite (Hpage eq_refl eq_refl eq_refl).
  by_evaluation.
Defined.


(** With one entry turned down, nothing is published: the rows are as
    they were and the error is the validator's. *)
Example publishMany_one_invalid :
  let x :=
    run Demo.handle (publishMany Demo.ENTRY_PUBLISH one_invalid article) one_invalid in
  (x.1.1, x.1.2, bulk_updates x.2, emitted x.2, length x.2)
  = (Throws (ValidationError "title must be defined." VUndef), one_invalid, [], [], 6).
Proof. by_evaluation. Qed.

(** Every entry of the example is published already; the bulk update goes
    out all the same, with no identifier to match. *)
Lemma publishMany_all_published_counterexample :
  let '(r, _, t) :=
    run Demo.handle (publishMany Demo.ENTRY_PUBLISH two_published article) two_published in
  two_published <> []
  /\ Forall (fun e => nullable_timestamp (prop e PUBLISHED_AT_ATTRIBUTE) = true
                      /\ prop e PUBLISHED_AT_ATTRIBUTE <> VNull) two_published
  /\ bulk_updates t
     = [(article,
         VObj {[ "where" := ids_filter [];
                 "data" := VObj {[ PUBLISHED_AT_ATTRIBUTE := VDate 1700000000000 ]} ]})]
  /\ ~ (r = Returns (VNum 0) /\ bulk_updates t = [] /\ emitted t = []).
Proof.
  destruct (run Demo.handle (publishMany Demo.ENTRY_PUBLISH two_published article)
              two_published) as [[r rows] t] eqn:E.
  assert (B : bulk_updates t
              = [(article,
                  VObj {[ "where" := ids_filter [];
                          "data" := VObj {[ PUBLISHED_AT_ATTRIBUTE := VDate 1700000000000 ]} ]})]).
  { apply (f_equal (fun x => bulk_updates x.2)) in E. cbn [snd] in E. rewrite <- E.
    vm_compute. reflexivity. }
  split; [discriminate |]. split.
  - repeat constructor; discriminate.
  - split; [exact B |]. intros (_ & B' & _). rewrite B' in B. discriminate B.
Qed.

Lemma publishMany_all_published_witness :
  let '(r, _, t) :=
    run Demo.handle (publishMany Demo.ENTRY_PUBLISH two_published article) two_published in
  Forall (fun u => u.1 = article /\ optional_member u.2 "where" = ids_filter [])
         (bulk_updates t)
  /\ length (bulk_updates t) <= 1
  /\ Forall (fun ev => ev.1 = Demo.ENTRY_PUBLISH) (emitted t)
  /\ (forall count : value,
        r = Returns count ->
        length (bulk_updates t) = 1
        /\ (exists params, (DbQueryUpdateMany article params, Fulfilled count) ∈ t)
        /\ exists populate refetched,
             (EntityServiceFindMany article
                (VObj {[ "filters" := ids_filter []; "populate" := populate ]}),
              Fulfilled (VArr refetched)) ∈ t
             /\ length (emitted t) = length refetched).
Proof.
  apply (publishMany_all_published Demo.ENTRY_PUBLISH Demo.handle two_published
           two_published article).
  - discriminate.
  - repeat constructor.
Defined.

(** What the example run returns is what the store answered to the bulk
    update; no row changed and no event went out. *)
Example publishMany_two_published :
  let x :=
    run Demo.handle (publishMany Demo.ENTRY_PUBLISH two_published article) two_published in
  (x.1.1, x.1.2, emitted x.2, length (bulk_updates x.2))
  = (Returns (VObj {[ "count" := VNum 0 ]}), two_published, [], 1).
Proof. by_evaluation. Qed.

(** [unpublishMany] has no early return either: on drafts only it issues
    its bulk update with an empty identifier list. *)
Example unpublishMany_all_drafts :
  let drafts := [Demo.draft 1 "a"; Demo.draft 2 "b"] in
  let x :=
    run Demo.handle (unpublishMany Demo.ENTRY_UNPUBLISH drafts article) drafts in
  (x.1.1, x.1.2, emitted x.2, bulk_updates x.2)
  = (Returns (VObj {[ "count" := VNum 0 ]}), drafts, [],
     [(article,
       VObj {[ "where" := ids_filter [];
               "data" := VObj {[ PUBLISHED_AT_ATTRIBUTE := VNull ]} ]})]).
Proof. by_evaluation. Qed.

(** A mixed batch: the draft is published, the published entry is left
    out, one event goes out. *)
Example publishMany_mixed :
  let rows := [Demo.published 1 "a"; Demo.draft 3 "c"] in
  let x := run Demo.handle (publishMany Demo.ENTRY_PUBLISH rows article) rows in
  (x.1.1, x.1.2, emitted x.2)
  = (Returns (VObj {[ "count" := VNum 1 ]}),
     [Demo.published 1 "a"; <["publishedAt" := VDate 1700000000000]> (Demo.draft 3 "c")],
     [(Demo.ENTRY_PUBLISH,
       VObj {[ "model" := VStr "article";
               "entry" := VObj (<["publishedAt" := VDate 1700000000000]> (Demo.draft 3 "c")) ]})]).
Proof. by_evaluation. Qed.

(** [create] with a caller-supplied [publishedAt] stores a draft. *)
Example create_with_publishedAt :
  (run Demo.handle (create (Demo.published 7 "new") article) []).1
  = (Returns (VObj (Demo.draft 7 "new")), [Demo.draft 7 "new"]).
Proof. by_evaluation. Qed.

(** [update] with [id] and [publishedAt] in the patch changes neither. *)
Example update_with_id_and_publishedAt :
  let patch : obj := {[ "id" := VNum 9; "title" := VStr "b"; "publishedAt" := VNull ]} in
  (run Demo.handle (update (Demo.published 1 "a") patch article) [Demo.published 1 "a"]).1
  = (Returns (VObj (Demo.published 1 "b")), [Demo.published 1 "b"]).
Proof. by_evaluation. Qed.

(** Page sizes that parse to zero or to no number fall back to 10. *)
Example findPage_pageSize_defaults :
  map (findPage_pageSize Demo.StringToNumber Demo.ObjectToNumber)
      [VUndef; VObj ∅; VObj {[ "pageSize" := VNum 0 ]}; VObj {[ "pageSize" := VStr "0" ]};
       VObj {[ "pageSize" := VStr "abc" ]}; VObj {[ "pageSize" := VNull ]};
       VObj {[ "pageSize" := VStr "25" ]}]
  = [10; 10; 10; 10; 10; 10; 25]%float.
Proof. by_evaluation. Qed.

Example Math_ceil_values :
  map Math_ceil [PrimFloat.div 12 5; 2; 0; (-0.5); (-2.5); 0.25; infinity]%float
  = [3; 2; 0; (-0); (-2); 1; infinity]%float.
Proof. by_evaluation. Qed.


(** ** More properties of the service *)

Section MoreRun.

Context {W : Type}.

Lemma xrun_bind {A B} (h : xhandler W) (m : xprog A) (f : A -> xprog B) (w : W) :
  xrun h (xbind m f) w =
    match xrun h m w with
    | (Returns a, w1, t1) =>
        let '(r, w2, t2) := xrun h (f a) w1 in (r, w2, t1 ++ t2)
    | (Throws e, w1, t1) => (Throws e, w1, t1)
    end.
Proof.
  revert w. induction m as [a | e | c k IH]; intros w; cbn [xbind xrun].
  - destruct (xrun h (f a) w) as [[r w2] t2]. reflexivity.
  - reflexivity.
  - destruct (h c w) as [o w1]. rewrite IH.
    destruct (xrun h (k o) w1) as [[[a | e] w2] t1]; [| reflexivity].
    destruct (xrun h (f a) w2) as [[r w3] t2]. reflexivity.
Qed.

(** Running a lifted program is running it against the same environment
    seen through [Core]. *)
Lemma xrun_lift {A} (h : xhandler W) (p : prog A) (w : W) :
  xrun h (lift p) w =
    let '(r, w', t) := run (fun c => h (Core c)) p w in
    (r, w', (fun ev => (Core ev.1, ev.2)) <$> t).
Proof.
  revert w. induction p as [a | e | c k IH]; intros w; cbn [lift xrun run];
    try reflexivity.
  destruct (h (Core c) w) as [o w1]. rewrite IH.
  destruct (run (fun c0 => h (Core c0)) (k o) w1) as [[r w2] t]. reflexivity.
Qed.

Lemma run_call_free {A} (h : handler W) (p : prog A) (w : W) :
  call_free p -> (run h p w).1.2 = w /\ (run h p w).2 = [].
Proof. destruct p; simpl; intros H; [split; reflexivity .. | destruct H]. Qed.

End MoreRun.

Lemma bind_call_free {A B} (m : prog A) (f : A -> prog B) :
  call_free m -> (forall a, call_free (f a)) -> call_free (bind m f).
Proof. destruct m; simpl; intros Hm Hf; [apply Hf | exact I | destruct Hm]. Qed.

Lemma mapEntity_call_free (entity : value) (uid : string) : call_free (mapEntity entity uid).
Proof.
  destruct entity; simpl; try exact I.
  destruct (truthy (prop o "documentId")); exact I.
Qed.

Lemma mapM_call_free {A B} (f : A -> prog B) (l : list A) :
  (forall a, call_free (f a)) -> call_free (mapM f l).
Proof.
  intros Hf. induction l as [| a l IH]; [exact I |].
  cbn [mapM]. apply bind_call_free; [apply Hf |].
  intros y. apply bind_call_free; [exact IH |]. intros ys. exact I.
Qed.

Lemma mapEntitiesResponse_call_free (entities : value) (uid : string) :
  call_free (mapEntitiesResponse entities uid).
Proof.
  unfold mapEntitiesResponse.
  destruct (truthy (optional_member entities "results")); [| apply mapEntity_call_free].
  apply bind_call_free; [| intros; exact I].
  unfold mapAsync. apply bind_call_free.
  - destruct (optional_member entities "results"); exact I.
  - intros l. apply bind_call_free; [| intros; exact I].
    apply mapM_call_free. intros a. apply mapEntity_call_free.
Qed.

(** X1 (find): [find] replaces any [populate] of the caller by the deep
    populate specification and leaves the other options alone.  The list the
    store answers has no [results] field, so it is returned as it is: its
    elements are not remapped.  When the store answers [null] or [undefined],
    [find] fails with a TypeError. *)
Theorem find_returns_list_as_answered
    {W : Type} (h : xhandler W) (w w1 w2 : W)
    (opts : value) (uid : string) (populate entities : value) :
  let params := <["populate" := populate]> (spread opts) in
  h (GetDeepPopulate uid) w = (Fulfilled populate, w1) ->
  h (Core (DocumentsFindMany uid (VObj params))) w1 = (Fulfilled entities, w2) ->
  let t := [(GetDeepPopulate uid, Fulfilled populate);
            (Core (DocumentsFindMany uid (VObj params)), Fulfilled entities)] in
  params !! "populate" = Some populate
  /\ (forall k : string, k <> "populate" -> params !! k = spread opts !! k)
  /\ (forall l : list value,
        entities = VArr l -> xrun h (Service.find opts uid) w = (Returns (VArr l), w2, t))
  /\ (entities = VNull \/ entities = VUndef ->
      xrun h (Service.find opts uid) w = (Throws TypeError, w2, t)).
Proof.
  intros params E1 E2 t.
  split; [apply lookup_insert_eq |].
  split; [intros k Hk; apply lookup_insert_ne; congruence |].
  assert (Hrun : forall r,
             mapEntitiesResponse entities uid = r -> call_free r ->
             xrun h (Service.find opts uid) w
             = (match r with Ret a => Returns a | Throw e => Throws e
                           | Call _ _ => Throws TypeError end, w2, t)).
  { intros r Hr Hfree. unfold Service.find, xcall_. cbn [xbind xrun]. rewrite E1.
    cbn [xbind xrun]. fold params. rewrite E2. cbn [xbind]. rewrite xrun_lift, Hr.
    destruct r; [reflexivity | reflexivity | destruct Hfree]. }
  split.
  - intros l ->. apply (Hrun (Ret (VArr l))); [reflexivity | exact I].
  - intros [-> | ->]; apply (Hrun (Throw TypeError)); try reflexivity; exact I.
Qed.

(** X2 (findPage): whatever the environment answers, [findPage] issues
    exactly two calls, the list query and then the count query, both with the
    caller's options; the count query is issued even when the list query is
    rejected.  When exactly one of the two is rejected, [findPage] throws that
    rejection; when both are, it throws one of the two (which one depends on
    which promise settles first, and is not stated). *)
Theorem findPage_issues_two_queries
    {W : Type} (h : handler W) (w : W)
    (StringToNumber : string -> float) (ObjectToNumber : value -> float)
    (opts : value) (uid : string) :
  let '(r, _, t) := run h (findPage StringToNumber ObjectToNumber opts uid) w in
  exists o1 o2 : outcome,
    t = [(DocumentsFindMany uid opts, o1); (DocumentsCount uid opts, o2)]
    /\ (forall e v, o1 = Rejected e -> o2 = Fulfilled v -> r = Throws e)
    /\ (forall v e, o1 = Fulfilled v -> o2 = Rejected e -> r = Throws e)
    /\ (forall e1 e2, o1 = Rejected e1 -> o2 = Rejected e2 ->
        r = Throws e1 \/ r = Throws e2).
Proof.
  unfold findPage, start. cbn [bind run].
  destruct (h (DocumentsFindMany uid opts) w) as [o1 w1].
  cbn [bind run].
  destruct (h (DocumentsCount uid opts) w1) as [o2 w2].
  destruct o1 as [documents | e1]; destruct o2 as [total | e2].
  2-4: cbn [Promise_all bind run]; eexists _, _; split; [reflexivity |];
       repeat split; intros; try discriminate; try left; congruence.
  cbn [Promise_all bind nth].
  match goal with
  | |- context [run h (mapEntitiesResponse ?v uid) w2] =>
      pose proof (run_call_free h _ w2 (mapEntitiesResponse_call_free v uid)) as [_ Ht];
      destruct (run h (mapEntitiesResponse v uid) w2) as [[r w3] t]
  end.
  cbn [snd] in Ht. subst t.
  exists (Fulfilled documents), (Fulfilled total).
  repeat split; intros; discriminate.
Qed.

(** X3 (mapEntity): [mapEntity] fails, with a TypeError, exactly on [null]
    and [undefined]; what it returns never carries a truthy [documentId],
    and agrees with its argument on every field other than [id], [entryId]
    and [documentId]. *)
Theorem mapEntity_fails_only_on_null (entity : value) (uid : string) :
  (mapEntity entity uid = Throw TypeError <-> entity = VNull \/ entity = VUndef)
  /\ (forall mapped : value,
        mapEntity entity uid = Ret mapped ->
        truthy (optional_member mapped "documentId") = false
        /\ forall k : string,
             k <> "id" -> k <> "entryId" -> k <> "documentId" ->
             optional_member mapped k = optional_member entity k).
Proof.
  split.
  - split.
    + destruct entity; try discriminate; auto.
      simpl. destruct (truthy (prop o "documentId")); discriminate.
    + intros [-> | ->]; reflexivity.
  - intros mapped. destruct entity; try discriminate;
      try (intros [= <-]; split; [reflexivity | intros; reflexivity]).
    simpl. destruct (truthy (prop o "documentId")) eqn:T; intros [= <-].
    + split.
      * simpl. unfold prop. rewrite lookup_delete_eq. reflexivity.
      * intros k K1 K2 K3. simpl. unfold prop.
        rewrite lookup_delete_ne by congruence.
        rewrite !lookup_insert_ne by congruence. reflexivity.
    + split; [exact T | intros; reflexivity].
Qed.

(** Case analysis on the value given to [at_0]. *)
Ltac at_step :=
  match goal with
  | |- context [at_0 ?v] =>
      is_var v; destruct v as [| | ?b | ?n | [| ?a ?s] | ?ms | [| ?x ?l] | ?o]; simpl
  end.

Ltac xrun_all := repeat first [run_step | value_step | at_step].

(** X4 (clone): the data [clone] hands to the store is the caller's data
    with [publishedAt] set to null and [id] removed; the clone of the
    document's [id] is the only write, issued at most once and once when
    [clone] returns; what the store answers is returned without identifier
    remapping, unless the relation counts replace it. *)
Theorem clone_forces_draft_strips_id
    {W : Type} (h : xhandler W) (w : W) (document body : obj) (uid : string) :
  let data := delete "id" (<[PUBLISHED_AT_ATTRIBUTE := VNull]> body) in
  data !! PUBLISHED_AT_ATTRIBUTE = Some VNull
  /\ data !! "id" = None
  /\ (forall k : string,
        k <> "id" -> k <> PUBLISHED_AT_ATTRIBUTE -> data !! k = body !! k)
  /\ (let '(r, _, t) := xrun h (Service.clone document body uid) w in
      match writes t with
      | [] => is_returns r = false
      | [DocumentsClone u id params] =>
          u = uid /\ id = prop document "id"
          /\ optional_member params "data" = VObj data
          /\ forall res : value,
               r = Returns res ->
               exists cloned : value,
                 (DocumentsClone u id params, Fulfilled cloned) ∈ t
                 /\ (res = cloned
                     \/ (Core (GetDeepRelationsCount cloned uid), Fulfilled res) ∈ t)
      | _ => False
      end).
Proof.
  intros data.
  split; [subst data; rewrite lookup_delete_ne by discriminate; apply lookup_insert_eq |].
  split; [apply lookup_delete_eq |].
  split.
  - intros k K1 K2. subst data. rewrite lookup_delete_ne by congruence.
    apply lookup_insert_ne. congruence.
  - unfold Service.clone. simpl.
    xrun_all; try reflexivity; repeat split; try reflexivity;
      intros res [= <-]; eexists; split;
      try (rewrite !elem_of_cons; eauto 10; fail); eauto.
    all: rewrite !elem_of_cons; eauto 10.
Qed.

(** X5 (delete): [delete] removes the document by its [id], passing the
    populate specification it has just built; that is its only write,
    issued at most once and once when it returns, and it returns what the
    store answered, or its relation counts. *)
Theorem delete_removes_by_id
    {W : Type} (h : xhandler W) (w : W) (document : obj) (uid : string) :
  let '(r, _, t) := xrun h (Service.delete document uid) w in
  match writes t with
  | [] => is_returns r = false
  | [DocumentsDelete u id params] =>
      u = uid /\ id = prop document "id"
      /\ (exists flag : value,
             (Core (PopulateBuilder uid (negb (truthy flag))),
              Fulfilled (optional_member params "populate")) ∈ t)
      /\ forall res : value,
           r = Returns res ->
           exists deleted : value,
             (DocumentsDelete u id params, Fulfilled deleted) ∈ t
             /\ (res = deleted
                 \/ (Core (GetDeepRelationsCount deleted uid), Fulfilled res) ∈ t)
  | _ => False
  end.
Proof.
  unfold Service.delete. simpl.
  xrun_all; try reflexivity; repeat split; try reflexivity;
    try (eexists; rewrite !elem_of_cons; eauto 10; fail);
    intros res [= <-]; eexists; split;
    try (rewrite !elem_of_cons; eauto 10; fail); eauto.
  all: rewrite !elem_of_cons; eauto 10.
Qed.

Ltac at_any_step :=
  match goal with
  | |- context [at_0 ?v] =>
      destruct v as [| | ?b | ?n | [| ?a ?s] | ?ms | [| ?x ?l] | ?o] eqn:?; simpl
  end.

Ltac xrun_any := repeat first [run_step | value_step | at_any_step].

(** Case analysis on the position of an element of a list that is written
    out. *)
Ltac elem_cases H :=
  repeat (apply elem_of_cons in H; destruct H as [H | H]; [try discriminate H |]);
  try (apply elem_of_nil in H; destruct H).

(** X6 (publish): [publish] has no guard on [publishedAt], validates
    nothing and emits no event: it always starts by building the populate
    specification, and its only write is the publication of the document's
    [id].  It returns the first of the versions the store answers, after
    identifier remapping (or its relation counts); when the store answers no
    version, [publish] fails with a TypeError although the publication went
    through. *)
Theorem publish_has_no_guard
    {W : Type} (h : xhandler W) (w : W) (document : obj) (uid : string) :
  let '(r, _, t) := xrun h (Service.publish document uid) w in
  (exists (o : outcome) (rest : xtrace),
      t = (Core IsWebhooksPopulateRelationsEnabled, o) :: rest)
  /\ Forall (fun ev => is_event_or_validation ev.1 = false) t
  /\ match writes t with
     | [] => is_returns r = false
     | [DocumentsPublish u id params] =>
         u = uid /\ id = prop document "id"
         /\ forall published : value,
              (DocumentsPublish u id params, Fulfilled published) ∈ t ->
              (optional_member published "versions" = VArr [] -> r = Throws TypeError)
              /\ (forall (first : obj) (others : list value) (res : value),
                    optional_member published "versions" = VArr (VObj first :: others) ->
                    r = Returns res ->
                    res = VObj (remap first)
                    \/ (Core (GetDeepRelationsCount (VObj (remap first)) uid),
                        Fulfilled res) ∈ t)
     | _ => False
     end.
Proof.
  unfold Service.publish. simpl.
  xrun_any.
  all: split; [eexists _, _; reflexivity |].
  all: split; [repeat constructor |].
  all: try reflexivity.
  all: split; [reflexivity |]; split; [reflexivity |].
  all: intros published Hin; elem_cases Hin.
  all: inversion Hin; subst; clear Hin; simpl; split.
  all: try (intros Hv; congruence).
  all: intros first others res Hv; try congruence.
  all: intros [= <-].
  all: match goal with
       | H1 : prop ?o "versions" = _, H2 : prop ?o "versions" = _ |- _ =>
           rewrite H1 in H2; injection H2 as <- <-
       end.
  all: unfold remap, prop in *.
  all: repeat match goal with H : truthy _ = _ |- _ => rewrite H end.
  all: rewrite ?lookup_insert_ne by discriminate.
  all: rewrite ?elem_of_cons; eauto 12.
Qed.

Ltac guard_step :=
  match goal with
  | |- context [if negb (truthy ?x) then _ else _] => destruct (truthy x) eqn:?; simpl
  end.

(** X7 (deep-populate policy): in every run of [create], [update],
    [unpublish], [clone], [delete] and [publish], a store write is only
    issued right after the populate specification has been built, with the
    count-relations switch set to the negation of the feature flag, and the
    write carries exactly that specification. *)
Theorem populate_built_before_write
    {W : Type} (h : xhandler W) (w : W) (ENTRY_UNPUBLISH : string)
    (document body : obj) (patch : option obj) (uid : string) :
  populate_built_first uid (xrun h (lift (create body uid)) w).2
  /\ populate_built_first uid (xrun h (lift (update document body uid)) w).2
  /\ populate_built_first uid
       (xrun h (lift (unpublish ENTRY_UNPUBLISH document uid patch)) w).2
  /\ populate_built_first uid (xrun h (Service.clone document body uid) w).2
  /\ populate_built_first uid (xrun h (Service.delete document uid) w).2
  /\ populate_built_first uid (xrun h (Service.publish document uid) w).2.
Proof.
  unfold create, update, unpublish, Service.clone, Service.delete, Service.publish.
  repeat split; simpl;
    repeat first [run_step | value_step | at_any_step | guard_step];
    intros c Hc; simpl in Hc; elem_cases Hc; subst c;
    eexists _, _, _; reflexivity.
Qed.

Section Batches.

Context {W : Type} (h : handler W) (ENTRY_PUBLISH ENTRY_UNPUBLISH : string).

Lemma run_emitEvents_calls (uid event : string) (entities : value) :
  forall (w w' : W) (r : completion (list value)) (t : trace),
    run h (emitEvents uid event entities) w = (r, w', t) ->
    Forall (fun ev => is_emit_phase_call ev.1 = true) t.
Proof.
  intros w w' r t. unfold emitEvents.
  destruct entities as [| | b | n | s | ms | l | o];
    try (simpl; intros [= <- <- <-]; constructor).
  cbn [as_array bind]. rewrite run_bind.
  destruct (run h (mapM (fun entity => attempt (emitEvent uid event entity)) l) w)
    as [[r1 w1] t1] eqn:H1.
  assert (Ht1 : Forall (fun ev => is_emit_phase_call ev.1 = true) t1).
  { clear r w' t. revert w r1 w1 t1 H1.
    induction l as [| entity l IH]; intros w r1 w1 t1.
    - simpl. intros [= <- <- <-]. constructor.
    - cbn [mapM]. rewrite run_bind.
      destruct (run h (attempt (emitEvent uid event entity)) w) as [[r2 w2] t2] eqn:H2.
      assert (Ht2 : Forall (fun ev => is_emit_phase_call ev.1 = true) t2
                    /\ exists p, r2 = Returns p).
      { revert H2. unfold emitEvent. simpl.
        run_all; intros [= <- <- <-]; split; repeat constructor; eexists; reflexivity. }
      destruct Ht2 as [Ht2 [p ->]]. rewrite run_bind.
      destruct (run h (mapM (fun entity0 => attempt (emitEvent uid event entity0)) l) w2)
        as [[r3 w3] t3] eqn:H3.
      specialize (IH _ _ _ _ H3).
      destruct r3; cbn [run]; intros [= <- <- <-];
        rewrite ?app_nil_r; apply Forall_app; split; assumption. }
  destruct r1 as [ps | e]; [| intros [= <- <- <-]; exact Ht1].
  destruct (Promise_all_cases ps) as [(vs & -> & _) | (e & -> & _)];
    cbn [run]; intros [= <- <- <-]; rewrite app_nil_r; exact Ht1.
Qed.

Lemma emit_phase_no_validator (t : trace) :
  Forall (fun ev => is_emit_phase_call ev.1 = true) t ->
  Forall (fun ev => is_validator_call ev.1 = false) t.
Proof.
  intros H. eapply Forall_impl; [exact H |].
  intros [c o] Hc. destruct c; try discriminate Hc; reflexivity.
Qed.

(** X8 (publishMany): a batch that returns has validated every entry, with
    success, and read the clock before any update or event; it then issued
    one bulk update that sets [publishedAt] to the clock's answer for the
    identifiers of the entries that were drafts, in input order; it
    re-fetched with the same filter and only then emitted one publish event
    per re-fetched entry; it returns what the bulk update answered. *)
Theorem publishMany_batch
    (w w' : W) (entities : list obj) (uid : string) (count : value) (t : trace) :
  entities <> [] ->
  run h (publishMany ENTRY_PUBLISH entities uid) w = (Returns count, w', t) ->
  let filters := ids_filter (selected_ids false entities) in
  exists (pre post : trace) (now populate : value) (refetched : list value),
    t = pre
        ++ [(DbQueryUpdateMany uid
               (VObj {[ "where" := filters;
                        "data" := VObj {[ PUBLISHED_AT_ATTRIBUTE := now ]} ]}),
             Fulfilled count);
            (EntityServiceFindMany uid
               (VObj {[ "filters" := filters; "populate" := populate ]}),
             Fulfilled (VArr refetched))]
        ++ post
    /\ (NewDate, Fulfilled now) ∈ pre
    /\ bulk_updates pre = [] /\ emitted pre = []
    /\ (forall entity : obj,
          entity ∈ entities ->
          exists modelDef v : value,
            (ValidateEntityCreation modelDef (VObj entity) VUndef (VObj entity),
             Fulfilled v) ∈ pre)
    /\ bulk_updates post = []
    /\ Forall (fun ev => ev.1 = ENTRY_PUBLISH) (emitted post)
    /\ length (emitted post) = length refetched.
Proof.
  intros Hne Hrun filters. revert Hrun. unfold publishMany.
  destruct entities as [| entity entities]; [contradiction |].
  cbn [length Nat.eqb]. set (es := entity :: entities) in *.
  fold (selected_ids false es). fold filters.
  rewrite run_bind.
  destruct (run h (validations es uid) w) as [[r1 w1] t1] eqn:Hval.
  destruct (run_validations h uid es _ _ _ _ Hval) as [Ht Hr].
  destruct (validation_trace_quiet t1 Ht) as [B1 M1].
  destruct r1 as [promises | e]; [| discriminate].
  rewrite run_bind.
  destruct (Promise_all_cases promises) as [(vs & -> & ->) | (e & -> & _)];
    [| cbn [run]; discriminate].
  cbn [run]. unfold buildDeepPopulate, call_. cbn [bind run].
  repeat call_step; try discriminate.
  rewrite run_bind.
  match goal with
  | |- context [run h (emitEvents ?u ?ev ?x) ?w0] =>
      destruct (run h (emitEvents u ev x) w0) as [[r5 w6] t5] eqn:Hem;
      destruct (run_emitEvents h u ev x _ _ _ _ Hem) as (B5 & F5 & L5)
  end.
  destruct r5 as [done | e]; cbn [run]; [| discriminate].
  intros [= <- <- <-]. destruct (L5 eq_refl) as (l & -> & Hl).
  eexists (t1 ++ [_; _; _]), t5, _, _, l. rewrite app_nil_r.
  split; [rewrite <- app_assoc; reflexivity |].
  split; [rewrite elem_of_app; right; left |].
  split; [rewrite bulk_updates_app, B1; reflexivity |].
  split; [rewrite emitted_app, M1; reflexivity |].
  split; [| split; [exact B5 | split; [exact F5 | exact Hl]]].
  intros x Hx. apply list_elem_of_lookup in Hx as [i Hi].
  destruct (Forall2_lookup_l _ _ _ _ _ Hr Hi) as (p & Hp & m & _ & _ & _ & Hin).
  rewrite list_lookup_fmap in Hp. destruct (vs !! i) as [validated |]; [| discriminate Hp].
  injection Hp as <-. exists m, validated. rewrite elem_of_app. left. exact Hin.
Qed.

(** X9 (unpublishMany): a batch that returns never called the validator;
    it built the populate specification, issued one bulk update that sets
    [publishedAt] to null for the identifiers of the entries that were
    published, in input order, re-fetched with the same filter, and only then
    emitted one unpublish event per re-fetched entry; it returns what the
    bulk update answered. *)
Theorem unpublishMany_batch
    (w w' : W) (entities : list obj) (uid : string) (count : value) (t : trace) :
  entities <> [] ->
  run h (unpublishMany ENTRY_UNPUBLISH entities uid) w = (Returns count, w', t) ->
  let filters := ids_filter (selected_ids true entities) in
  exists (post : trace) (flag populate : value) (refetched : list value),
    t = [(IsWebhooksPopulateRelationsEnabled, Fulfilled flag);
         (PopulateBuilder uid (negb (truthy flag)), Fulfilled populate);
         (DbQueryUpdateMany uid
            (VObj {[ "where" := filters;
                     "data" := VObj {[ PUBLISHED_AT_ATTRIBUTE := VNull ]} ]}),
          Fulfilled count);
         (EntityServiceFindMany uid
            (VObj {[ "filters" := filters; "populate" := populate ]}),
          Fulfilled (VArr refetched))]
        ++ post
    /\ Forall (fun ev => is_validator_call ev.1 = false) t
    /\ bulk_updates post = []
    /\ Forall (fun ev => ev.1 = ENTRY_UNPUBLISH) (emitted post)
    /\ length (emitted post) = length refetched.
Proof.
  intros Hne Hrun filters. revert Hrun. unfold unpublishMany.
  destruct entities as [| entity entities]; [contradiction |].
  cbn [length Nat.eqb]. set (es := entity :: entities) in *.
  fold (selected_ids true es). fold filters.
  unfold buildDeepPopulate, call_. cbn [bind run].
  repeat call_step; try discriminate.
  rewrite run_bind.
  match goal with
  | |- context [run h (emitEvents ?u ?ev ?x) ?w0] =>
      destruct (run h (emitEvents u ev x) w0) as [[r5 w6] t5] eqn:Hem;
      destruct (run_emitEvents h u ev x _ _ _ _ Hem) as (B5 & F5 & L5);
      pose proof (emit_phase_no_validator _ (run_emitEvents_calls u ev x _ _ _ _ Hem)) as V5
  end.
  destruct r5 as [done | e]; cbn [run]; [| discriminate].
  intros [= <- <- <-]. destruct (L5 eq_refl) as (l & -> & Hl).
  exists t5. eexists _, _, l. rewrite app_nil_r.
  split; [reflexivity |].
  split; [repeat (constructor; [reflexivity |]); exact V5 |].
  split; [exact B5 | split; [exact F5 | exact Hl]].
Qed.

(** X10 (empty batch): on the empty list [publishMany] and
    [unpublishMany] return null without calling anything; on any other list
    they call the environment at least once. *)
Theorem batch_touches_nothing_iff_empty
    (w : W) (entities : list obj) (uid : string) :
  run h (publishMany ENTRY_PUBLISH [] uid) w = (Returns VNull, w, [])
  /\ run h (unpublishMany ENTRY_UNPUBLISH [] uid) w = (Returns VNull, w, [])
  /\ ((run h (publishMany ENTRY_PUBLISH entities uid) w).2 = [] <-> entities = [])
  /\ ((run h (unpublishMany ENTRY_UNPUBLISH entities uid) w).2 = [] <-> entities = []).
Proof.
  split; [reflexivity |]. split; [reflexivity |]. split; split.
  - destruct entities as [| entity entities]; [reflexivity |].
    unfold publishMany, validations. cbn [length Nat.eqb mapM]. unfold call_.
    cbn [bind run]. destruct (h (GetModel uid) w) as [o w1].
    match goal with
    | |- context [run h ?p w1] => destruct (run h p w1) as [[r w2] t]
    end.
    discriminate.
  - intros ->. reflexivity.
  - destruct entities as [| entity entities]; [reflexivity |].
    unfold unpublishMany, buildDeepPopulate, call_. cbn [length Nat.eqb bind run].
    destruct (h IsWebhooksPopulateRelationsEnabled w) as [o w1].
    match goal with
    | |- context [run h ?p w1] => destruct (run h p w1) as [[r w2] t]
    end.
    discriminate.
  - intros ->. reflexivity.
Qed.

End Batches.

Section Counting.

Context {W : Type} (h : xhandler W) (AddOther : value -> value -> value).

Lemma xrun_sumDraftCounts_from
    (f : value -> float) (uid : string) (entities : list value) :
  (forall (entity : value) (w0 : W),
      h (SumDraftCounts entity uid) w0 = (Fulfilled (VNum (f entity)), w0)) ->
  forall (count : float) (w : W),
    xrun h (Service.sumDraftCounts_from AddOther (VNum count) entities uid) w
    = (Returns (VNum (fold_left (fun c entity => PrimFloat.add (f entity) c) entities count)),
       w,
       (fun entity => (SumDraftCounts entity uid, Fulfilled (VNum (f entity)))) <$> entities).
Proof.
  intros Hsum. induction entities as [| entity entities IH]; intros count w.
  - reflexivity.
  - cbn [Service.sumDraftCounts_from]. unfold xcall_. cbn [xbind xrun].
    rewrite Hsum. cbn [xbind Service.add]. rewrite IH. reflexivity.
Qed.

(** X11 (countDraftRelations): when the content type has no relation worth
    counting, the answer is 0 and the store is not queried; otherwise the
    entry is looked up once, with the draft-count populate specification,
    and the answer is what [sumDraftCounts] makes of it. *)
Theorem countDraftRelations_short_circuit
    (w w1 : W) (id : value) (uid : string) (draftCount : obj) :
  h (GetDeepPopulateDraftCount uid) w = (Fulfilled (VObj draftCount), w1) ->
  let first := (GetDeepPopulateDraftCount uid, Fulfilled (VObj draftCount)) in
  let lookup :=
    Core (DocumentsFindOne uid id (VObj {[ "populate" := prop draftCount "populate" ]})) in
  (truthy (prop draftCount "hasRelations") = false ->
   xrun h (Service.countDraftRelations id uid) w = (Returns (VNum 0), w1, [first]))
  /\ (truthy (prop draftCount "hasRelations") = true ->
      forall (document : value) (w2 w3 : W) (o : outcome),
        h lookup w1 = (Fulfilled document, w2) ->
        h (SumDraftCounts document uid) w2 = (o, w3) ->
        xrun h (Service.countDraftRelations id uid) w
        = (match o with Fulfilled n => Returns n | Rejected e => Throws e end,
           w3,
           [first; (lookup, Fulfilled document); (SumDraftCounts document uid, o)])).
Proof.
  intros E first lookup. split.
  - intros Hno. unfold Service.countDraftRelations, xcall_. cbn [xbind xrun].
    rewrite E. cbn [xbind xrun lift member]. rewrite Hno. reflexivity.
  - intros Hyes document w2 w3 o E2 E3.
    unfold Service.countDraftRelations, xcall_. cbn [xbind xrun].
    rewrite E. cbn [xbind xrun lift member]. rewrite Hyes. cbn [negb xbind xrun].
    fold lookup. rewrite E2. cbn [xbind xrun]. rewrite E3. destruct o; reflexivity.
Qed.

(** X12 (countManyEntriesDraftRelations): with no relation worth counting
    the answer is 0 without a query; otherwise the entries with the given
    identifiers are fetched once, in locale ["en"] unless one is given, and
    the answer is the sum of their draft counts, each added to the running
    total in the order of the fetched list, starting from 0. *)
Theorem countManyEntriesDraftRelations_sums
    (w w1 w2 : W) (ids : list value) (uid : string) (locale : value)
    (draftCount : obj) (entities : list value) (f : value -> float) :
  h (GetDeepPopulateDraftCount uid) w = (Fulfilled (VObj draftCount), w1) ->
  let first := (GetDeepPopulateDraftCount uid, Fulfilled (VObj draftCount)) in
  let fetch :=
    Core (EntityServiceFindMany uid
            (VObj {[ "populate" := prop draftCount "populate";
                     "filters" := ids_filter ids;
                     "locale" := default_to (VStr "en") locale ]})) in
  (truthy (prop draftCount "hasRelations") = false ->
   xrun h (Service.countManyEntriesDraftRelations AddOther ids uid locale) w
   = (Returns (VNum 0), w1, [first]))
  /\ (truthy (prop draftCount "hasRelations") = true ->
      h fetch w1 = (Fulfilled (VArr entities), w2) ->
      (forall (entity : value) (w0 : W),
          h (SumDraftCounts entity uid) w0 = (Fulfilled (VNum (f entity)), w0)) ->
      xrun h (Service.countManyEntriesDraftRelations AddOther ids uid locale) w
      = (Returns (VNum (fold_left (fun c entity => PrimFloat.add (f entity) c) entities
                                   0%float)),
         w2,
         first :: (fetch, Fulfilled (VArr entities))
           :: ((fun entity => (SumDraftCounts entity uid, Fulfilled (VNum (f entity))))
                 <$> entities))).
Proof.
  intros E first fetch. split.
  - intros Hno. unfold Service.countManyEntriesDraftRelations, xcall_. cbn [xbind xrun].
    rewrite E. cbn [xbind xrun lift member]. rewrite Hno. reflexivity.
  - intros Hyes E2 Hsum.
    unfold Service.countManyEntriesDraftRelations, xcall_. cbn [xbind xrun].
    rewrite E. cbn [xbind xrun lift member]. rewrite Hyes. cbn [negb xbind xrun].
    fold fetch. rewrite E2. cbn [xbind xrun lift as_array].
    fold (@xcall_). rewrite (xrun_sumDraftCounts_from f uid entities Hsum 0%float w2).
    reflexivity.
Qed.

End Counting.

Section Localization.

Context {W : Type} (h : xhandler W) (SameValueZero : value -> value -> bool).

(** X13 (i18n middleware): the middleware passes the context to [next] at
    most once and never changes what [next] answers.  It synchronises the
    non-localized attributes, with that answer and the schema of the
    context, exactly when the action is [create], [update] or [createEntry]
    and the content type is one of the localized ones; in every other case
    its only call is [next].  A context without content type makes it fail
    before [next], for those three actions only. *)
Theorem middleware_syncs_localized_writes
    (w : W) (uids : list value) (context : obj) :
  let schema := prop context "contentType" in
  let writes_entry :=
    includes_literal ["create"; "update"; "createEntry"] (prop context "action") in
  let localized := existsb (fun u => SameValueZero u (optional_member schema "uid")) uids in
  let '(r, _, t) := xrun h (Service.middleware SameValueZero uids (VObj context)) w in
  match t with
  | [] =>
      r = Throws TypeError /\ writes_entry = true /\ (schema = VNull \/ schema = VUndef)
  | [(Next ctx, o)] =>
      ctx = VObj context
      /\ match o with
         | Fulfilled res => r = Returns res /\ writes_entry && localized = false
         | Rejected e => r = Throws e
         end
  | [(Next ctx, Fulfilled res); (SyncNonLocalizedAttributes res' schema', o)] =>
      ctx = VObj context /\ res' = res /\ schema' = schema
      /\ writes_entry && localized = true
      /\ r = match o with Fulfilled _ => Returns res | Rejected e => Throws e end
  | _ => False
  end.
Proof.
  intros schema writes_entry localized.
  unfold Service.middleware, xcall_. cbn [lift member xbind].
  fold schema. fold writes_entry.
  destruct writes_entry eqn:Hw; cbn [negb].
  - destruct schema as [| | b | n | s | ms | l | o] eqn:Hs; cbn [lift member xbind xrun];
      try (repeat split; auto; fail).
    all: subst localized; cbn [optional_member];
      match goal with
      | |- context [existsb ?f ?us] => destruct (existsb f us) eqn:Hl
      end; cbn [negb xrun xbind];
      repeat run_step; repeat split; reflexivity.
  - cbn [xrun]. repeat run_step; repeat split; reflexivity.
Qed.

(** X14 (registerModelsHooks): when [isLocalizedContentType] answers
    without changing the environment, the identifiers the middleware works
    with are those of the content types it accepts, in registry order, and it
    is asked once for every content type. *)
Theorem i18nModelUIDs_of_localized
    (w : W) (contentTypes : list obj) (answer : value -> value) :
  (forall (contentType : value) (w0 : W),
      h (IsLocalizedContentType contentType) w0 = (Fulfilled (answer contentType), w0)) ->
  xrun h (Service.i18nModelUIDs (VObj <$> contentTypes)) w
  = (Returns ((fun contentType => prop contentType "uid")
                <$> List.filter (fun contentType => truthy (answer (VObj contentType)))
                                contentTypes),
     w,
     (fun contentType =>
        (IsLocalizedContentType (VObj contentType), Fulfilled (answer (VObj contentType))))
       <$> contentTypes).
Proof.
  intros Hanswer. unfold Service.i18nModelUIDs. rewrite xrun_bind.
  assert (Hfilter :
            forall w0,
              xrun h (xfilterM (fun contentType => xcall_ (IsLocalizedContentType contentType))
                        (VObj <$> contentTypes)) w0
              = (Returns (VObj <$> List.filter
                                     (fun contentType => truthy (answer (VObj contentType)))
                                     contentTypes),
                 w0,
                 (fun contentType =>
                    (IsLocalizedContentType (VObj contentType),
                     Fulfilled (answer (VObj contentType)))) <$> contentTypes)).
  { induction contentTypes as [| contentType cts IH]; intros w0; [reflexivity |].
    cbn [fmap list_fmap xfilterM]. unfold xcall_ at 1. cbn [xbind xrun].
    rewrite Hanswer. cbn [xbind]. rewrite xrun_bind.
    change (list_fmap obj value VObj cts) with (VObj <$> cts). rewrite IH.
    cbn [xrun List.filter].
    destruct (truthy (answer (VObj contentType))); rewrite app_nil_r; reflexivity. }
  rewrite Hfilter.
  assert (Hmap :
            forall (l : list obj) w0,
              xrun h (xmapM (fun contentType => lift (member contentType "uid")) (VObj <$> l)) w0
              = (Returns ((fun contentType => prop contentType "uid") <$> l), w0, [])).
  { induction l as [| contentType l IH]; intros w0; [reflexivity |].
    cbn [fmap list_fmap xmapM lift member xbind]. rewrite xrun_bind.
    change (list_fmap obj value VObj l) with (VObj <$> l). rewrite IH. reflexivity. }
  rewrite Hmap. rewrite app_nil_r. reflexivity.
Qed.

End Localization.

(** X15 (validate): the helper returns what the schema parsed; the only
    error it lets out is a ValidationError, built from a ZodError, whose
    message is the messages of the issues joined by line breaks and whose
    details are the formatted errors; any other failure of the schema is
    swallowed and [validate] returns [undefined]. *)
Theorem validate_only_throws_ValidationError (schema : value -> parsed) (data : value) :
  match validate schema data with
  | Returns output =>
      schema data = Parsed output
      \/ (output = VUndef /\ exists e, schema data = ThrowsOther e)
  | Throws e =>
      exists (messages : list string) (formatted : value),
        schema data = ThrowsZodError messages formatted
        /\ e = ValidationError (String.concat newline messages)
                 (VObj {[ "errors" := formatted ]})
        /\ (forall m, messages = [m] -> e = ValidationError m (VObj {[ "errors" := formatted ]}))
        /\ (forall m1 m2,
              messages = [m1; m2] ->
              e = ValidationError (m1 ++ newline ++ m2) (VObj {[ "errors" := formatted ]}))
  end.
Proof.
  unfold validate. destruct (schema data) as [output | messages formatted | e].
  - left. reflexivity.
  - exists messages, formatted. repeat split; intros; subst; reflexivity.
  - right. split; [reflexivity | exists e; reflexivity].
Qed.

(** X16 (emitEvent): [emitEvent] emits at most one event, of the given
    name; its payload is the model name of the model [getModel] answered and
    the entity as the output sanitizer answered it, never the entity it was
    given; it emits exactly one event when it returns. *)
Theorem emitEvent_payload_is_sanitized
    {W : Type} (h : handler W) (w : W) (uid event : string) (entity : value) :
  let '(r, _, t) := run h (emitEvent uid event entity) w in
  match emitted t with
  | [] => is_returns r = false
  | [(name, payload)] =>
      name = event
      /\ exists modelDef sanitized : value,
           t !! 0 = Some (GetModel uid, Fulfilled modelDef)
           /\ t !! 1 = Some (DefaultSanitizeOutput modelDef entity, Fulfilled sanitized)
           /\ payload = VObj {[ "model" := optional_member modelDef "modelName";
                                "entry" := sanitized ]}
  | _ => False
  end.
Proof.
  unfold emitEvent. simpl.
  run_all; try reflexivity; split; try reflexivity; eexists _, _;
    repeat split; reflexivity.
Qed.

(** X17 (create, update): what [create] and [update] return is the entry
    the store answered after identifier remapping, or the relation counts
    computed from that remapped entry; when the store answers [null] or
    [undefined] they fail with a TypeError, after the write. *)
Theorem create_update_return_remapped
    {W : Type} (h : handler W) (w : W) (document body : obj) (uid : string) :
  let returns_remapped (is_write : call -> bool) (x : completion value * W * trace) :=
    forall (c : call) (answered : value),
      is_write c = true ->
      (c, Fulfilled answered) ∈ x.2 ->
      (answered = VNull \/ answered = VUndef -> x.1.1 = Throws TypeError)
      /\ forall res : value,
           x.1.1 = Returns res ->
           res = remap_value answered
           \/ (GetDeepRelationsCount (remap_value answered) uid, Fulfilled res) ∈ x.2 in
  returns_remapped (fun c => match c with DocumentsCreate _ _ => true | _ => false end)
                   (run h (create body uid) w)
  /\ returns_remapped (fun c => match c with DocumentsUpdate _ _ _ => true | _ => false end)
                      (run h (update document body uid) w).
Proof.
  intros returns_remapped. subst returns_remapped. cbv beta.
  unfold create, update. split; simpl; run_all.
  all: intros c answered Hc Hin; elem_cases Hin.
  all: try (inversion Hin; subst; discriminate Hc).
  all: inversion Hin; subst; clear Hin; simpl.
  all: split; [intros [H | H]; try discriminate H; reflexivity |].
  all: intros res H; try discriminate H; injection H as <-.
  all: unfold remap, prop in *.
  all: repeat match goal with H : truthy _ = _ |- _ => rewrite H end.
  all: rewrite ?lookup_insert_ne by discriminate.
  all: rewrite ?elem_of_cons; eauto 12.
Qed.


(** ** The rest of the service on the reference environment *)

Lemma find_returns_list_as_answered_witness :
  let rows := [Demo.document 1 "doc-1" "a"] in
  let opts := VObj {[ "populate" := VStr "*"; "sort" := VStr "title" ]} in
  let populate := VObj {[ "author" := VBool true ]} in
  (xrun XDemo.handle (Service.find opts article) rows).1
  = (Returns (VArr [VObj (Demo.document 1 "doc-1" "a")]), rows)
  /\ (<["populate" := populate]> (spread opts)) !! "sort" = Some (VStr "title").
Proof.
  intros rows opts populate.
  destruct (find_returns_list_as_answered XDemo.handle rows rows rows opts article
              populate (VArr (VObj <$> rows)) eq_refl eq_refl)
    as (_ & Hother & Harr & _).
  split.
  - rewrite (Harr (VObj <$> rows) eq_refl). reflexivity.
  - rewrite Hother by discriminate. by_evaluation.
Defined.

Lemma publishMany_batch_witness :
  let rows := [Demo.published 1 "a"; Demo.draft 3 "c"] in
  let x := run Demo.handle (publishMany Demo.ENTRY_PUBLISH rows article) rows in
  let count := VObj {[ "count" := VNum 1 ]} in
  let filters := ids_filter [VNum 3] in
  x.1.1 = Returns count
  /\ exists (pre post : trace) (now populate : value) (refetched : list value),
       x.2 = pre
             ++ [(DbQueryUpdateMany article
                    (VObj {[ "where" := filters;
                             "data" := VObj {[ PUBLISHED_AT_ATTRIBUTE := now ]} ]}),
                  Fulfilled count);
                 (EntityServiceFindMany article
                    (VObj {[ "filters" := filters; "populate" := populate ]}),
                  Fulfilled (VArr refetched))]
             ++ post
       /\ (NewDate, Fulfilled now) ∈ pre
       /\ bulk_updates pre = [] /\ emitted pre = []
       /\ (forall entity : obj,
             entity ∈ rows ->
             exists modelDef v : value,
               (ValidateEntityCreation modelDef (VObj entity) VUndef (VObj entity),
                Fulfilled v) ∈ pre)
       /\ bulk_updates post = []
       /\ Forall (fun ev => ev.1 = Demo.ENTRY_PUBLISH) (emitted post)
       /\ length (emitted post) = length refetched.
Proof.
  intros rows x count filters.
  assert (R : x.1.1 = Returns count) by by_evaluation.
  assert (E : x = (Returns count, x.1.2, x.2))
    by (rewrite <- R; destruct x as [[r w'] t]; reflexivity).
  split; [exact R |].
  exact (publishMany_batch Demo.handle Demo.ENTRY_PUBLISH rows x.1.2 rows article count x.2
           ltac:(discriminate) E).
Defined.

Lemma unpublishMany_batch_witness :
  let rows := [Demo.published 1 "a"; Demo.draft 3 "c"] in
  let x := run Demo.handle (unpublishMany Demo.ENTRY_UNPUBLISH rows article) rows in
  let count := VObj {[ "count" := VNum 1 ]} in
  let filters := ids_filter [VNum 1] in
  x.1.1 = Returns count
  /\ exists (post : trace) (flag populate : value) (refetched : list value),
       x.2 = [(IsWebhooksPopulateRelationsEnabled, Fulfilled flag);
              (PopulateBuilder article (negb (truthy flag)), Fulfilled populate);
              (DbQueryUpdateMany article
                 (VObj {[ "where" := filters;
                          "data" := VObj {[ PUBLISHED_AT_ATTRIBUTE := VNull ]} ]}),
               Fulfilled count);
              (EntityServiceFindMany article
                 (VObj {[ "filters" := filters; "populate" := populate ]}),
               Fulfilled (VArr refetched))]
             ++ post
       /\ Forall (fun ev => is_validator_call ev.1 = false) x.2
       /\ bulk_updates post = []
       /\ Forall (fun ev => ev.1 = Demo.ENTRY_UNPUBLISH) (emitted post)
       /\ length (emitted post) = length refetched.
Proof.
  intros rows x count filters.
  assert (R : x.1.1 = Returns count) by by_evaluation.
  assert (E : x = (Returns count, x.1.2, x.2))
    by (rewrite <- R; destruct x as [[r w'] t]; reflexivity).
  split; [exact R |].
  exact (unpublishMany_batch Demo.handle Demo.ENTRY_UNPUBLISH rows x.1.2 rows article count
           x.2 ltac:(discriminate) E).
Defined.

Lemma countDraftRelations_short_circuit_witness :
  let rows := [XDemo.with_drafts 1 2] in
  xrun XDemo.handle (Service.countDraftRelations (VNum 1) article) rows
  = (Returns (VNum 2), rows,
     [(GetDeepPopulateDraftCount article,
       Fulfilled (VObj {[ "populate" := VObj ∅; "hasRelations" := VBool true ]}));
      (Core (DocumentsFindOne article (VNum 1) (VObj {[ "populate" := VObj ∅ ]})),
       Fulfilled (VObj (XDemo.with_drafts 1 2)));
      (SumDraftCounts (VObj (XDemo.with_drafts 1 2)) article, Fulfilled (VNum 2))]).
Proof.
  intros rows.
  destruct (countDraftRelations_short_circuit XDemo.handle rows rows (VNum 1) article
              {[ "populate" := VObj ∅; "hasRelations" := VBool true ]} eq_refl)
    as [_ H].
  exact (H eq_refl (VObj (XDemo.with_drafts 1 2)) rows rows (Fulfilled (VNum 2))
           eq_refl eq_refl).
Defined.

Lemma countManyEntriesDraftRelations_sums_witness :
  let rows := [XDemo.with_drafts 1 2; XDemo.with_drafts 2 0; XDemo.with_drafts 3 5] in
  (xrun XDemo.handle
     (Service.countManyEntriesDraftRelations (fun _ _ => VUndef) [VNum 1; VNum 3] article
        VUndef) rows).1
  = (Returns (VNum 7), rows).
Proof.
  intros rows.
  destruct (countManyEntriesDraftRelations_sums XDemo.handle (fun _ _ => VUndef)
              rows rows rows [VNum 1; VNum 3] article VUndef
              {[ "populate" := VObj ∅; "hasRelations" := VBool true ]}
              [VObj (XDemo.with_drafts 1 2); VObj (XDemo.with_drafts 3 5)]
              XDemo.drafts_of eq_refl)
    as [_ H].
  rewrite (H eq_refl eq_refl (fun _ _ => eq_refl)). by_evaluation.
Defined.

Lemma i18nModelUIDs_of_localized_witness :
  let contentTypes :=
    [XDemo.content_type "api::article.article" true;
     XDemo.content_type "api::tag.tag" false;
     XDemo.content_type "api::page.page" true] in
  (xrun XDemo.handle (Service.i18nModelUIDs (VObj <$> contentTypes)) []).1
  = (Returns [VStr "api::article.article"; VStr "api::page.page"], []).
Proof.
  intros contentTypes.
  rewrite (i18nModelUIDs_of_localized XDemo.handle [] contentTypes
             (fun contentType => optional_member contentType "localized")
             (fun _ _ => eq_refl)).
  by_evaluation.
Defined.

(** Publishing a draft of the example returns its only version, and no
    event goes out. *)
Example publish_draft :
  let x := xrun XDemo.handle (Service.publish (Demo.draft 3 "c") article) [Demo.draft 3 "c"] in
  (x.1, length x.2)
  = ((Returns (VObj (<["publishedAt" := VDate 1700000000000]> (Demo.draft 3 "c"))),
      [<["publishedAt" := VDate 1700000000000]> (Demo.draft 3 "c")]), 5).
Proof. by_evaluation. Qed.

(** Publishing a document the store does not know publishes nothing and
    fails on the missing first version. *)
Example publish_unknown :
  (xrun XDemo.handle (Service.publish (Demo.draft 9 "z") article) [Demo.draft 3 "c"]).1
  = (Throws TypeError, [Demo.draft 3 "c"]).
Proof. by_evaluation. Qed.

(** Cloning a published entry stores a draft copy. *)
Example clone_published :
  (xrun XDemo.handle
     (Service.clone (Demo.published 1 "a") {[ "title" := VStr "b" ]} article)
     [Demo.published 1 "a"]).1
  = (Returns (VObj (Demo.draft 1 "b")), [Demo.published 1 "a"; Demo.draft 1 "b"]).
Proof. by_evaluation. Qed.

(** The middleware of the example synchronises an update of a localized
    type and nothing else. *)
Example middleware_on_update :
  let uids := [VStr "api::article.article"] in
  let same (a b : value) := Demo.same_id a b in
  let context (action uid : string) : value :=
    VObj {[ "action" := VStr action; "contentType" := VObj {[ "uid" := VStr uid ]} ]} in
  map (fun ctx => length (xrun XDemo.handle (Service.middleware same uids ctx) []).2)
      [context "update" "api::article.article"; context "update" "api::tag.tag";
       context "findMany" "api::article.article"]
  = [2; 1; 1].
Proof. by_evaluation. Qed.
